(** * National Institute of Jalandhar API: the read endpoints and the seeder

    A shallow embedding of [src/main.py] and [src/schemas.py].

    - Python values stored in documents are the inductive type [value];
      a [dict] is an association list in insertion order with unique keys.
    - The pydantic models of [schemas.py] are field tables ([schema]);
      constructing a model is [validate], which fails with
      [ValidationError].
    - [database.py] is not part of the sources at hand.  What [main.py]
      imports from it ([db], [create_document], [get_documents]) and the
      driver call [db[c].count_documents] form the interface
      [DocumentStore]; handlers are written once against that interface, in
      a state and exception monad, and run on the in-memory store
      [MemStore] that is modelled from the specification.
    - FastAPI's part (checking [Query(None, ge=1, le=12)] before the handler
      is called, turning an exception of the handler into a server error)
      is the route layer at the end of the model. *)

From Stdlib Require Import List String Ascii ZArith Bool Lia.
Import ListNotations.
Local Open Scope string_scope.
Local Open Scope Z_scope.

Set Implicit Arguments.

(** ** Exceptions and results *)

(** The exceptions the modelled code can see.  All of them derive from
    Python's [Exception]. *)
Inductive exn : Type :=
| ValidationError                 (* pydantic: a model could not be built *)
| AttributeError                  (* [.lower()] on something that is no str *)
| StoreError (msg : string).      (* raised by the store or its driver *)

Inductive result (A : Type) : Type :=
| Ok (a : A)
| Raise (e : exn).
Arguments Ok {A} a.
Arguments Raise {A} e.

Definition rbind {A B} (r : result A) (f : A -> result B) : result B :=
  match r with
  | Ok a => f a
  | Raise e => Raise e
  end.

(** A list comprehension whose body may raise: elements are evaluated left
    to right and the first exception ends the comprehension. *)
Fixpoint rmap {A B} (f : A -> result B) (l : list A) : result (list B) :=
  match l with
  | [] => Ok []
  | x :: xs => rbind (f x) (fun y => rbind (rmap f xs) (fun ys => Ok (y :: ys)))
  end.

(** A comprehension with a condition that may raise. *)
Fixpoint rfilter {A} (p : A -> result bool) (l : list A) : result (list A) :=
  match l with
  | [] => Ok []
  | x :: xs =>
      rbind (p x) (fun b =>
      rbind (rfilter p xs) (fun ys => Ok (if b then x :: ys else ys)))
  end.

(** ** Strings *)

(** [str.lower()], on ASCII text: the letters [A]..[Z] are mapped to
    [a]..[z], every other byte is kept. *)
Definition lower_ascii (c : ascii) : ascii :=
  let n := nat_of_ascii c in
  if (Nat.leb 65 n && Nat.leb n 90)%bool then ascii_of_nat (n + 32) else c.

Fixpoint lower (s : string) : string :=
  match s with
  | EmptyString => EmptyString
  | String c r => String (lower_ascii c) (lower r)
  end.

(** [needle in hay] for two strings. *)
Fixpoint contains (needle hay : string) : bool :=
  (String.prefix needle hay ||
   match hay with
   | EmptyString => false
   | String _ rest => contains needle rest
   end)%bool.

(** Truth value of a [str]: only the empty string is false. *)
Definition str_truthy (s : string) : bool :=
  match s with
  | EmptyString => false
  | String _ _ => true
  end.

(** Truth value of an [Optional[str]]: [None] and the empty string are
    false. *)
Definition opt_truthy (o : option string) : bool :=
  match o with
  | None => false
  | Some s => str_truthy s
  end.

(** ** Values and dicts *)

#[warnings="-register-all"]
Inductive value : Type :=
| VNone
| VBool (b : bool)
| VInt (z : Z)
| VStr (s : string)
| VDate (day : Z)                 (* datetime.date, as a day number *)
| VDatetime (t : Z)               (* datetime.datetime, as a timestamp *)
| VObjectId (n : nat)             (* the store's document id *)
| VList (l : list value).

Fixpoint value_eqb (a b : value) : bool :=
  match a, b with
  | VNone, VNone => true
  | VBool x, VBool y => Bool.eqb x y
  | VInt x, VInt y => Z.eqb x y
  | VStr x, VStr y => String.eqb x y
  | VDate x, VDate y => Z.eqb x y
  | VDatetime x, VDatetime y => Z.eqb x y
  | VObjectId x, VObjectId y => Nat.eqb x y
  | VList xs, VList ys =>
      (fix all2 (xs ys : list value) : bool :=
         match xs, ys with
         | [], [] => true
         | x :: xs', y :: ys' => (value_eqb x y && all2 xs' ys')%bool
         | _, _ => false
         end) xs ys
  | _, _ => false
  end.

(** A Python [dict] with [str] keys. *)
Definition dict : Type := list (string * value).

(** [d.get(k)] *)
Fixpoint dict_get (k : string) (d : dict) : option value :=
  match d with
  | [] => None
  | (k', v) :: rest => if String.eqb k k' then Some v else dict_get k rest
  end.

(** [d[k] = v]: an existing key keeps its place, a new key goes last. *)
Fixpoint dict_set (k : string) (v : value) (d : dict) : dict :=
  match d with
  | [] => [(k, v)]
  | (k', v') :: rest =>
      if String.eqb k k' then (k', v) :: rest else (k', v') :: dict_set k v rest
  end.

Definition keys (d : dict) : list string := map fst d.

Definition mem (k : string) (l : list string) : bool :=
  existsb (String.eqb k) l.

(** The keys that the store adds to a document. *)
Definition storage_keys : list string := ["_id"; "created_at"; "updated_at"].

(** The dict comprehension of every list handler: the items of [d] whose
    key is not in [["_id", "created_at", "updated_at"]]. *)
Definition strip_storage (d : dict) : dict :=
  filter (fun kv => negb (mem (fst kv) storage_keys)) d.

(** ** The schema layer ([schemas.py]) *)

Inductive ftype : Type := TStr | TInt | TDate | THttpUrl | TListStr.

(** One annotated attribute of a pydantic model. *)
Record field : Type := mkField {
  fname : string;
  ftyp : ftype;
  foptional : bool;             (* [Optional[...]]: [None] is a value *)
  fdefault : option value;      (* [None] here: the attribute is required *)
  fge : option Z;
  fle : option Z
}.

Definition schema : Type := list field.

(** [n: t] or [n: t = Field(...)] *)
Definition req (n : string) (t : ftype) : field :=
  mkField n t false None None None.

(** [n: t = Field(..., ge=lo, le=hi)] *)
Definition req_range (n : string) (t : ftype) (lo hi : Z) : field :=
  mkField n t false None (Some lo) (Some hi).

(** [n: Optional[t] = None] or [n: Optional[t] = Field(None)] *)
Definition opt (n : string) (t : ftype) : field :=
  mkField n t true (Some VNone) None None.

Definition Program : schema :=
  [ req "name" TStr;
    req "department" TStr;
    req "level" TStr;
    req_range "duration_years" TInt 1 6;
    opt "description" TStr;
    req_range "semesters" TInt 1 12 ].

Definition FacultySchema : schema :=
  [ req "name" TStr;
    req "designation" TStr;
    req "department" TStr;
    opt "email" TStr;
    opt "phone" TStr;
    opt "photo_url" THttpUrl;
    mkField "research_areas" TListStr false (Some (VList [])) None None ].

Definition EventSchema : schema :=
  [ req "title" TStr;
    opt "description" TStr;
    req "category" TStr;
    req "start_date" TDate;
    opt "end_date" TDate;
    req "location" TStr;
    opt "link" THttpUrl ].

Definition AdmissionSchema : schema :=
  [ req "year" TInt;
    req "program" TStr;
    req "status" TStr;
    opt "application_deadline" TDate;
    opt "brochure_url" THttpUrl;
    opt "apply_url" THttpUrl;
    opt "notes" TStr ].

Definition PyqSchema : schema :=
  [ req "program" TStr;
    req "department" TStr;
    req "course_code" TStr;
    req "course_title" TStr;
    req_range "semester" TInt 1 12;
    req "year" TInt;
    req "exam_type" TStr;
    req "file_url" THttpUrl ].

(** [ge] and [le] of an attribute. *)
Definition in_bounds (f : field) (z : Z) : bool :=
  (match fge f with Some lo => lo <=? z | None => true end &&
   match fle f with Some hi => z <=? hi | None => true end)%bool.

Definition after_prefix (p s : string) : bool :=
  (String.prefix p s && Nat.ltb (String.length p) (String.length s))%bool.

Definition is_http_url (s : string) : bool :=
  (after_prefix "http://" s || after_prefix "https://" s)%bool.

Definition is_str (v : value) : bool :=
  match v with VStr _ => true | _ => false end.

(** What pydantic does with one value.  Values are accepted at their own
    type only (the coercions of pydantic's lax mode, such as a numeric
    string for an [int] attribute, are left out); an [HttpUrl] is a string
    that starts with [http://] or [https://] and goes on after it. *)
Definition check (f : field) (v : value) : result value :=
  match ftyp f, v with
  | TStr, VStr _ => Ok v
  | TInt, VInt z => if in_bounds f z then Ok v else Raise ValidationError
  | TDate, VDate _ => Ok v
  | THttpUrl, VStr s => if is_http_url s then Ok v else Raise ValidationError
  | TListStr, VList l =>
      if forallb is_str l then Ok v else Raise ValidationError
  | _, _ => Raise ValidationError
  end.

Definition validate_field (kw : dict) (f : field) : result (string * value) :=
  match dict_get (fname f) kw with
  | None =>
      match fdefault f with
      | Some v => Ok (fname f, v)
      | None => Raise ValidationError
      end
  | Some VNone =>
      if foptional f then Ok (fname f, VNone) else Raise ValidationError
  | Some v => rbind (check f v) (fun v' => Ok (fname f, v'))
  end.

(** Building a model from keyword arguments [kw]: every attribute of the
    model is taken from [kw] or from its default; keys of [kw] that name no
    attribute are ignored.  The result is the model as [model_dump()] shows
    it: its attributes in declaration order. *)
Definition validate (sch : schema) (kw : dict) : result dict :=
  rmap (validate_field kw) sch.

(** The list comprehension that ends every list handler: each document,
    without its storage keys, is passed to the model as keyword
    arguments. *)
Definition to_models (sch : schema) (docs : list dict) : result (list dict) :=
  rmap (fun d => validate sch (strip_storage d)) docs.

(** ** The state and exception monad of the handlers *)

(** A computation over the store's state [S] that returns or raises.  The
    state comes back in both cases: what was written before an exception
    stays written. *)
Definition M (S A : Type) : Type := S -> S * result A.

Definition ret {S A} (a : A) : M S A := fun s => (s, Ok a).

Definition bind {S A B} (m : M S A) (f : A -> M S B) : M S B :=
  fun s =>
    match m s with
    | (s', Ok a) => f a s'
    | (s', Raise e) => (s', Raise e)
    end.

Definition lift {S A} (r : result A) : M S A := fun s => (s, r).

(** [try: body / except Exception: pass] *)
Definition try_pass {S} (body : M S unit) : M S unit :=
  fun s =>
    match body s with
    | (s', Ok _) => (s', Ok tt)
    | (s', Raise _) => (s', Ok tt)
    end.

Declare Scope handler_scope.
Delimit Scope handler_scope with handler.
Notation "x <- m ;; k" := (bind m (fun x => k))
  (at level 100, m at next level, right associativity) : handler_scope.
Notation "m ;;; k" := (bind m (fun _ => k))
  (at level 100, right associativity) : handler_scope.
Local Open Scope handler_scope.

(** ** The store interface *)

(** What [main.py] uses of [database.py] and of the driver.  [DB] is the
    type of the handle that the global [db] holds when it is not [None];
    [S] is the state of the store behind it.  The helpers of [database.py]
    work on the same global; here they are given the handle. *)
Class DocumentStore (DB S : Type) : Type := {
  (** [bool(db)] for a handle *)
  db_bool : DB -> result bool;
  (** [db[collection].count_documents(filter)] *)
  count_documents : DB -> string -> dict -> M S Z;
  (** [create_document(collection, model)], on the model's dump *)
  create_document : DB -> string -> dict -> M S value;
  (** [get_documents(collection, filter)]; without a filter argument the
      filter is empty *)
  get_documents : DB -> string -> dict -> M S (list dict)
}.

(** ** [main.py] *)

(** [d.get(k, default)] *)
Definition dict_get_or (k : string) (default : value) (d : dict) : value :=
  match dict_get k d with
  | Some v => v
  | None => default
  end.

(** [v.lower()]: only a [str] has the method. *)
Definition lower_of (v : value) : result string :=
  match v with
  | VStr s => Ok (lower s)
  | _ => Raise AttributeError
  end.

(** The condition of the search comprehension of [list_pyqs]:
    [s in (code.lower() + " " + title.lower())], where [code] and [title]
    are what [d.get] finds under [course_code] and [course_title], with the
    empty string as default. *)
Definition search_cond (s : string) (d : dict) : result bool :=
  let no_text := VStr EmptyString in
  rbind (lower_of (dict_get_or "course_code" no_text d)) (fun code =>
  rbind (lower_of (dict_get_or "course_title" no_text d)) (fun title =>
  Ok (contains s (code ++ " " ++ title)))).

(** The search step of [list_pyqs]:
    [if search: s = search.lower(); docs = [d for d in docs if ...]] *)
Definition search_docs (search : option string) (docs : list dict)
    : result (list dict) :=
  match search with
  | None => Ok docs
  | Some q =>
      if str_truthy q
      then (let s := lower q in rfilter (search_cond s) docs)
      else Ok docs
  end.

(** [if p: filter_q[k] = p] for an [Optional[str]] parameter. *)
Definition set_if_truthy (k : string) (p : option string) (filter_q : dict)
    : dict :=
  match p with
  | Some s => if str_truthy s then dict_set k (VStr s) filter_q else filter_q
  | None => filter_q
  end.

(** [if p is not None: filter_q[k] = p] for an [Optional[int]] parameter. *)
Definition set_if_not_none (k : string) (p : option Z) (filter_q : dict)
    : dict :=
  match p with
  | Some z => dict_set k (VInt z) filter_q
  | None => filter_q
  end.

(** Lines 150 to 162 of [list_pyqs]: the filter that goes to the store. *)
Definition pyq_filter (program department : option string)
    (semester : option Z) (course_code : option string) (year : option Z)
    (exam_type : option string) : dict :=
  let filter_q := [] in
  let filter_q := set_if_truthy "program" program filter_q in
  let filter_q := set_if_truthy "department" department filter_q in
  let filter_q := set_if_not_none "semester" semester filter_q in
  let filter_q := set_if_truthy "course_code" course_code filter_q in
  let filter_q := set_if_not_none "year" year filter_q in
  let filter_q := set_if_truthy "exam_type" exam_type filter_q in
  filter_q.

(** What a route answers. *)
Inductive response : Type :=
| Http200 (body : list dict)
| Http422                       (* request validation failed *)
| Http500 (e : exn).            (* the handler raised *)

(** [Query(None, ge=lo, le=hi)] on an [Optional[int]] parameter. *)
Definition query_ge_le (lo hi : Z) (p : option Z) : bool :=
  match p with
  | None => true
  | Some z => ((lo <=? z) && (z <=? hi))%bool
  end.

Section Handlers.
Context {DB S : Type} {store : DocumentStore DB S}.

(** [bool(db)] for the global [db], which is [None] or a handle. *)
Definition truthy (db : option DB) : M S bool :=
  match db with
  | None => ret false
  | Some h => lift (db_bool h)
  end.

(** [{key: p} if (p and db) else {}] for an [Optional[str]] parameter:
    [p and db] is [p] when [p] is false, and [db] otherwise. *)
Definition filter_if (key : string) (p : option string) (db : option DB)
    : M S dict :=
  match p with
  | None => ret []
  | Some s =>
      if str_truthy s
      then (b <- truthy db ;; ret (if b then [(key, VStr s)] else []))
      else ret []
  end.

(** [get_documents(collection, filter_q) if db else []] *)
Definition docs_if (db : option DB) (collection : string) (filter_q : dict)
    : M S (list dict) :=
  b <- truthy db ;;
  match db, b with
  | Some h, true => get_documents h collection filter_q
  | _, _ => ret []
  end.

Definition list_programs (db : option DB) : M S (list dict) :=
  docs <- docs_if db "program" [] ;;
  lift (to_models Program docs).

Definition list_faculty (db : option DB) (department : option string)
    : M S (list dict) :=
  filter_q <- filter_if "department" department db ;;
  docs <- docs_if db "faculty" filter_q ;;
  lift (to_models FacultySchema docs).

Definition list_events (db : option DB) (category : option string)
    : M S (list dict) :=
  filter_q <- filter_if "category" category db ;;
  docs <- docs_if db "event" filter_q ;;
  lift (to_models EventSchema docs).

Definition list_admissions (db : option DB) (status : option string)
    : M S (list dict) :=
  filter_q <- filter_if "status" status db ;;
  docs <- docs_if db "admission" filter_q ;;
  lift (to_models AdmissionSchema docs).

Definition list_pyqs (db : option DB)
    (program department : option string) (semester : option Z)
    (course_code : option string) (year : option Z)
    (exam_type search : option string) : M S (list dict) :=
  match db with
  | None => ret []
  | Some h =>
      let filter_q :=
        pyq_filter program department semester course_code year exam_type in
      docs <- get_documents h "pyq" filter_q ;;
      docs <- lift (search_docs search docs) ;;
      lift (to_models PyqSchema docs)
  end.

(** [create_document(collection, Model(...))]: the model is built first. *)
Definition create (h : DB) (collection : string) (sch : schema) (kw : dict)
    : M S unit :=
  m <- lift (validate sch kw) ;;
  _ <- create_document h collection m ;;
  ret tt.

(** [if db[collection].count_documents({}) == 0: body] *)
Definition if_empty (h : DB) (collection : string) (body : M S unit)
    : M S unit :=
  n <- count_documents h collection [] ;;
  if n =? 0 then body else ret tt.

(** [today] is what [date.today()] returns when the events are seeded. *)
Definition seed_demo_data (db : option DB) (today : Z) : M S unit :=
  match db with
  | None => ret tt
  | Some h =>
      try_pass (
        if_empty h "program" (
          create h "program" Program
            [("name", VStr "B.Tech Computer Science");
             ("department", VStr "CSE");
             ("level", VStr "UG"); ("duration_years", VInt 4);
             ("description", VStr "Core CS curriculum with electives in AI/ML");
             ("semesters", VInt 8)] ;;;
          create h "program" Program
            [("name", VStr "M.Tech Data Science"); ("department", VStr "CSE");
             ("level", VStr "PG"); ("duration_years", VInt 2);
             ("description", VStr "Advanced DS/ML program");
             ("semesters", VInt 4)]) ;;;
        if_empty h "faculty" (
          create h "faculty" FacultySchema
            [("name", VStr "Dr. A. Sharma"); ("designation", VStr "Professor");
             ("department", VStr "CSE"); ("email", VStr "asharma@nijt.ac.in");
             ("research_areas", VList [VStr "AI"; VStr "Computer Vision"])] ;;;
          create h "faculty" FacultySchema
            [("name", VStr "Dr. R. Kaur");
             ("designation", VStr "Assistant Professor");
             ("department", VStr "ECE"); ("email", VStr "rkaur@nijt.ac.in");
             ("research_areas",
              VList [VStr "VLSI"; VStr "Embedded Systems"])]) ;;;
        if_empty h "event" (
          create h "event" EventSchema
            [("title", VStr "AI Symposium 2025");
             ("description", VStr "Talks & workshops on AI");
             ("category", VStr "seminar"); ("start_date", VDate today);
             ("end_date", VDate today); ("location", VStr "Auditorium")] ;;;
          create h "event" EventSchema
            [("title", VStr "TechFest");
             ("description", VStr "Annual technical fest");
             ("category", VStr "cultural");
             ("start_date", VDate (today + 30));
             ("end_date", VDate (today + 32));
             ("location", VStr "Campus Grounds")]) ;;;
        if_empty h "admission" (
          create h "admission" AdmissionSchema
            [("year", VInt 2025); ("program", VStr "B.Tech");
             ("status", VStr "Open");
             ("notes", VStr "Apply via national counseling portal")]) ;;;
        if_empty h "pyq" (
          create h "pyq" PyqSchema
            [("program", VStr "BTECH CSE"); ("department", VStr "CSE");
             ("course_code", VStr "CS101");
             ("course_title", VStr "Programming Fundamentals");
             ("semester", VInt 1); ("year", VInt 2023);
             ("exam_type", VStr "End");
             ("file_url",
              VStr "https://example.com/pyq/cs101_2023_end.pdf")]))
  end.

(** *** The route layer (FastAPI) *)

(** A route without constraints on its parameters: the handler runs, and
    what it returns or raises becomes the response. *)
Definition respond (handler : M S (list dict)) : S -> S * response :=
  fun s =>
    match handler s with
    | (s', Ok body) => (s', Http200 body)
    | (s', Raise e) => (s', Http500 e)
    end.

Definition get_api_programs (db : option DB) := respond (list_programs db).
Definition get_api_faculty (db : option DB) department :=
  respond (list_faculty db department).
Definition get_api_events (db : option DB) category :=
  respond (list_events db category).
Definition get_api_admissions (db : option DB) status :=
  respond (list_admissions db status).

(** [GET /api/pyqs]: [semester] is declared [Query(None, ge=1, le=12)], and
    the handler is called only with parameters that passed. *)
Definition get_api_pyqs (db : option DB)
    (program department : option string) (semester : option Z)
    (course_code : option string) (year : option Z)
    (exam_type search : option string) : S -> S * response :=
  fun s =>
    if query_ge_le 1 12 semester
    then respond (list_pyqs db program department semester course_code year
                    exam_type search) s
    else (s, Http422).

End Handlers.

(** ** An in-memory document store *)

Module MemStore.

(** Modelled from the spec: the store behind [database.py], which is not
    among the sources.  A store is a family of named collections, each a
    sequence of documents in insertion order. *)
Record state : Type := mkState {
  colls : string -> list dict;
  next_id : nat;
  clock : Z
}.

Definition init : state := mkState (fun _ => []) 0 0.

(** Modelled from the spec: a filter is a mapping of field names to
    required exact values. *)
Definition matches (filter_q d : dict) : bool :=
  forallb (fun kv =>
             match dict_get (fst kv) d with
             | Some v => value_eqb v (snd kv)
             | None => false
             end) filter_q.

(** Modelled from the spec: [findMany(collection, filter)], the documents
    of the collection that match, in insertion order. *)
Definition find_many (s : state) (collection : string) (filter_q : dict)
    : list dict :=
  filter (matches filter_q) (colls s collection).

(** Modelled from the spec: [insertOne(collection, record)] attaches the
    storage fields [created_at], [updated_at] and [_id] and persists the
    document at the end of its collection. *)
Definition insert_one (collection : string) (record : dict) (s : state)
    : state * value :=
  let id := VObjectId (next_id s) in
  let now := VDatetime (clock s) in
  let stored :=
    dict_set "_id" id
      (dict_set "updated_at" now (dict_set "created_at" now record)) in
  (mkState (fun c => if String.eqb c collection
                     then (colls s c ++ [stored])%list else colls s c)
           (S (next_id s)) (clock s),
   id).

(** Modelled from the spec: a configured handle is available, its truth
    value is that of an ordinary object; [countDocuments] counts what
    [findMany] finds; no operation fails. *)
#[global] Instance mem_store : DocumentStore unit state := {
  db_bool := fun _ => Ok true;
  count_documents := fun _ c f s =>
    (s, Ok (Z.of_nat (List.length (find_many s c f))));
  create_document := fun _ c m s =>
    let (s', id) := insert_one c m s in (s', Ok id);
  get_documents := fun _ c f s => (s, Ok (find_many s c f))
}.

(** The global [db] of a configured process. *)
Definition db : option unit := Some tt.

(** The store after the seeder ran on [s]. *)
Definition seeded (today : Z) (s : state) : state :=
  fst (seed_demo_data db today s).

End MemStore.

(** ** A store that always fails *)

Module BrokenStore.

(** A configured handle behind which nothing answers: every operation
    raises.  It serves to run the handlers on their failure paths. *)
Definition unreachable : exn := StoreError "store unreachable".

#[global] Instance broken_store : DocumentStore unit unit := {
  db_bool := fun _ => Ok true;
  count_documents := fun _ _ _ s => (s, Raise unreachable);
  create_document := fun _ _ _ s => (s, Raise unreachable);
  get_documents := fun _ _ _ s => (s, Raise unreachable)
}.

End BrokenStore.

(** ** Notions used in the statements *)

(** The text of a field that is a [str], and the empty string for a field
    that is absent (the default of [d.get]). *)
Definition text_of (k : string) (d : dict) : string :=
  match dict_get k d with
  | Some (VStr s) => s
  | _ => EmptyString
  end.

(** The field is absent or holds a [str]. *)
Definition text_ok (k : string) (d : dict) : Prop :=
  dict_get k d = None \/ exists s, dict_get k d = Some (VStr s).

Definition text_fields_ok (d : dict) : Prop :=
  text_ok "course_code" d /\ text_ok "course_title" d.

(** The search predicate of the code: the lowercased term occurs in the
    lowercased course code, one space, the lowercased course title. *)
Definition search_hit (q : string) (d : dict) : bool :=
  let code := text_of "course_code" d in
  let title := text_of "course_title" d in
  contains (lower q) (lower code ++ " " ++ lower title).

(** The search predicate in the words of the specification: the lowercased
    term occurs in the concatenation of course code and course title,
    compared without regard to case. *)
Definition spec_search_hit (q : string) (d : dict) : bool :=
  let code := text_of "course_code" d in
  let title := text_of "course_title" d in
  contains (lower q) (lower (code ++ title)).

(** The filter entry of a string parameter that is given and not empty,
    and of an integer parameter that is given. *)
Definition str_entry (k : string) (p : option string) : dict :=
  match p with
  | Some s => if str_truthy s then [(k, VStr s)] else []
  | None => []
  end.

Definition int_entry (k : string) (p : option Z) : dict :=
  match p with
  | Some z => [(k, VInt z)]
  | None => []
  end.

Definition no_storage_keys (r : dict) : Prop :=
  forall k, In k storage_keys -> dict_get k r = None.

(** [out] is a list of models of [sch], each built from a document with its
    storage keys taken out. *)
Definition stripped_models (sch : schema) (out : list dict) : Prop :=
  exists docs,
    Forall2 (fun d r => validate sch (strip_storage d) = Ok r
                        /\ no_storage_keys (strip_storage d)) docs out.

(** The store answers a query with documents that carry, for every entry of
    the filter, exactly the value asked for. *)
Definition honours_filters {DB S : Type} (store : DocumentStore DB S) : Prop :=
  forall (h : DB) (collection : string) (filter_q : dict) (s s' : S)
         (docs : list dict),
    get_documents h collection filter_q s = (s', Ok docs) ->
    Forall (fun d => forall k v, dict_get k filter_q = Some v ->
                                 dict_get k d = Some v) docs.

Definition seeded_collections : list string :=
  ["program"; "faculty"; "event"; "admission"; "pyq"].

(** The seeder on the in-memory store, collection by collection: a
    collection that is empty receives its demo records, any other is left
    as it is. *)
Definition insert_all (c : string) (models : list dict) (s : MemStore.state)
    : MemStore.state :=
  fold_left (fun s m => fst (MemStore.insert_one c m s)) models s.

Definition fill (c : string) (models : list dict) (s : MemStore.state)
    : MemStore.state :=
  match MemStore.colls s c with
  | [] => insert_all c models s
  | _ :: _ => s
  end.

(** The demo records as models, that is, with the defaults of the
    attributes that the seeder does not give. *)
Definition demo_programs : list dict :=
  [ [("name", VStr "B.Tech Computer Science"); ("department", VStr "CSE");
     ("level", VStr "UG"); ("duration_years", VInt 4);
     ("description", VStr "Core CS curriculum with electives in AI/ML");
     ("semesters", VInt 8)];
    [("name", VStr "M.Tech Data Science"); ("department", VStr "CSE");
     ("level", VStr "PG"); ("duration_years", VInt 2);
     ("description", VStr "Advanced DS/ML program");
     ("semesters", VInt 4)] ].

Definition demo_faculty : list dict :=
  [ [("name", VStr "Dr. A. Sharma"); ("designation", VStr "Professor");
     ("department", VStr "CSE"); ("email", VStr "asharma@nijt.ac.in");
     ("phone", VNone); ("photo_url", VNone);
     ("research_areas", VList [VStr "AI"; VStr "Computer Vision"])];
    [("name", VStr "Dr. R. Kaur"); ("designation", VStr "Assistant Professor");
     ("department", VStr "ECE"); ("email", VStr "rkaur@nijt.ac.in");
     ("phone", VNone); ("photo_url", VNone);
     ("research_areas", VList [VStr "VLSI"; VStr "Embedded Systems"])] ].

Definition demo_events (today : Z) : list dict :=
  [ [("title", VStr "AI Symposium 2025");
     ("description", VStr "Talks & workshops on AI");
     ("category", VStr "seminar"); ("start_date", VDate today);
     ("end_date", VDate today); ("location", VStr "Auditorium");
     ("link", VNone)];
    [("title", VStr "TechFest");
     ("description", VStr "Annual technical fest");
     ("category", VStr "cultural"); ("start_date", VDate (today + 30));
     ("end_date", VDate (today + 32)); ("location", VStr "Campus Grounds");
     ("link", VNone)] ].

Definition demo_admissions : list dict :=
  [ [("year", VInt 2025); ("program", VStr "B.Tech"); ("status", VStr "Open");
     ("application_deadline", VNone); ("brochure_url", VNone);
     ("apply_url", VNone);
     ("notes", VStr "Apply via national counseling portal")] ].

Definition demo_pyqs : list dict :=
  [ [("program", VStr "BTECH CSE"); ("department", VStr "CSE");
     ("course_code", VStr "CS101");
     ("course_title", VStr "Programming Fundamentals");
     ("semester", VInt 1); ("year", VInt 2023); ("exam_type", VStr "End");
     ("file_url", VStr "https://example.com/pyq/cs101_2023_end.pdf")] ].

(** [countDocuments] with the empty filter, as a number. *)
Definition count (s : MemStore.state) (c : string) : Z :=
  Z.of_nat (List.length (MemStore.find_many s c [])).

(** A seeded store and the stored form of its one question paper, for
    the concrete runs below. *)
Definition seeded_store : MemStore.state := MemStore.seeded 0 MemStore.init.

Definition stored_cs101 : dict :=
  [("program", VStr "BTECH CSE"); ("department", VStr "CSE");
   ("course_code", VStr "CS101");
   ("course_title", VStr "Programming Fundamentals");
   ("semester", VInt 1); ("year", VInt 2023); ("exam_type", VStr "End");
   ("file_url", VStr "https://example.com/pyq/cs101_2023_end.pdf");
   ("created_at", VDatetime 0); ("updated_at", VDatetime 0);
   ("_id", VObjectId 7)].

Unset Implicit Arguments.

(** ** The diagnostic route ([test_database]) and what it needs *)

(** [s[:n]]: the first [n] characters of [s], or all of [s]. *)
Fixpoint take (n : nat) (s : string) : string :=
  match n, s with
  | O, _ => EmptyString
  | S _, EmptyString => EmptyString
  | S n', String c r => String c (take n' r)
  end.

(** What [test_database] asks of the handle, besides the store interface.
    [db_name h] is the attribute [name] of the handle: [Ok None] when the
    handle has no such attribute ([hasattr] is false), [Raise e] when
    reading it raises. *)
Class HandleInfo (DB S : Type) : Type := {
  db_name : DB -> result (option value);
  (** [db.list_collection_names()] *)
  list_collection_names : DB -> M S (list string)
}.

Section Diagnostics.
Context {DB S : Type} {info : HandleInfo DB S}.

(** [str(e)] for an exception, and [os.getenv]. *)
Variable str_exn : exn -> string.
Variable getenv : string -> option string.

(** ["✅ Set" if os.getenv(name) else "❌ Not Set"] *)
Definition env_status (name : string) : value :=
  VStr (if opt_truthy (getenv name) then "✅ Set" else "❌ Not Set").

(** The body of the outer [try] of [test_database], on the response built
    so far; the [except] clauses are the [Raise] branches. *)
Definition probe (db : option DB) (response : dict) : S -> S * dict :=
  fun s =>
    match db with
    | Some h =>
        let response := dict_set "database" (VStr "✅ Available") response in
        let response :=
          dict_set "database_url" (VStr "✅ Configured") response in
        match db_name h with
        | Ok name =>
            let shown :=
              match name with
              | Some v => v
              | None => VStr "✅ Connected"
              end in
            let response := dict_set "database_name" shown response in
            let response :=
              dict_set "connection_status" (VStr "Connected") response in
            match list_collection_names h s with
            | (s', Ok collections) =>
                let response :=
                  dict_set "collections"
                    (VList (map VStr (firstn 10 collections))) response in
                (s', dict_set "database" (VStr "✅ Connected & Working") response)
            | (s', Raise e) =>
                let msg := "⚠️  Connected but Error: " ++ take 50 (str_exn e) in
                (s', dict_set "database" (VStr msg) response)
            end
        | Raise e =>
            let msg := "❌ Error: " ++ take 50 (str_exn e) in
            (s, dict_set "database" (VStr msg) response)
        end
    | None =>
        (s, dict_set "database" (VStr "⚠️  Available but not initialized") response)
    end.

Definition test_database (db : option DB) : S -> S * dict :=
  fun s =>
    let response :=
      [("backend", VStr "✅ Running");
       ("database", VStr "❌ Not Available");
       ("database_url", VNone);
       ("database_name", VNone);
       ("connection_status", VStr "Not Connected");
       ("collections", VList [])] in
    let (s', response) := probe db response s in
    let response :=
      dict_set "database_url" (env_status "DATABASE_URL") response in
    let response :=
      dict_set "database_name" (env_status "DATABASE_NAME") response in
    (s', response).

End Diagnostics.

(** ** More notions used in the statements *)

(** No character of [s] is a space. *)
Fixpoint space_free (s : string) : bool :=
  match s with
  | EmptyString => true
  | String c r => (negb (Ascii.eqb c " ") && space_free r)%bool
  end.

(** The five models that [main.py] reads and writes. *)
Definition content_schemas : list schema :=
  [Program; FacultySchema; EventSchema; AdmissionSchema; PyqSchema].

(** The default of an attribute is a value that the attribute accepts. *)
Definition default_ok (f : field) : bool :=
  match fdefault f with
  | None => true
  | Some VNone => foptional f
  | Some v => match check f v with Ok w => value_eqb w v | Raise _ => false end
  end.

(** The in-memory store behind a handle that has no truth value: [bool(db)]
    raises, every other operation is that of [MemStore]. *)
Definition no_truth_value : exn := StoreError "no truth value testing".

Definition strict_store : DocumentStore unit MemStore.state :=
  {| db_bool := fun _ => Raise no_truth_value;
     count_documents := @count_documents _ _ MemStore.mem_store;
     create_document := @create_document _ _ MemStore.mem_store;
     get_documents := @get_documents _ _ MemStore.mem_store |}.

(** The in-memory store behind a handle that is false. *)
Definition falsy_store : DocumentStore unit MemStore.state :=
  {| db_bool := fun _ => Ok false;
     count_documents := @count_documents _ _ MemStore.mem_store;
     create_document := @create_document _ _ MemStore.mem_store;
     get_documents := @get_documents _ _ MemStore.mem_store |}.

(** A handle named [nijt] over a database with twelve collections, and one
    whose listing fails with a long message. *)
Definition twelve_names : list string :=
  ["c01"; "c02"; "c03"; "c04"; "c05"; "c06";
   "c07"; "c08"; "c09"; "c10"; "c11"; "c12"].

Definition twelve_info : HandleInfo unit unit :=
  {| db_name := fun _ => Ok (Some (VStr "nijt"));
     list_collection_names := fun _ s => (s, Ok twelve_names) |}.

Definition long_message : string :=
  "0123456789012345678901234567890123456789012345678901234567890123456789".

Definition failing_info : HandleInfo unit unit :=
  {| db_name := fun _ => Ok None;
     list_collection_names := fun _ s => (s, Raise (StoreError long_message)) |}.

(** [str(e)] for the runs below: the message of a store error. *)
Definition message_of (e : exn) : string :=
  match e with
  | StoreError msg => msg
  | ValidationError => "validation error"
  | AttributeError => "attribute error"
  end.

(** The seeded store with one more document in [program], one that lacks
    most attributes of a program. *)
Definition with_bad_program : MemStore.state :=
  fst (MemStore.insert_one "program" [("name", VStr "Draft")] seeded_store).

(** An environment with [DATABASE_URL] set and [DATABASE_NAME] not. *)
Definition url_only (name : string) : option string :=
  if String.eqb name "DATABASE_URL" then Some "mongodb://localhost" else None.

(** * Properties *)

(** Two different string constants are different. *)
Ltac distinct_names := intros Heq; discriminate Heq.

(** ** Results and comprehensions *)

Lemma rmap_Forall2 {A B} (f : A -> result B) (l : list A) (out : list B) :
  rmap f l = Ok out -> Forall2 (fun x y => f x = Ok y) l out.
Proof.
  revert out. induction l as [|x xs IH]; simpl; intros out H.
  - inversion H. constructor.
  - destruct (f x) as [y|e] eqn:Hx; simpl in H; [|discriminate].
    destruct (rmap f xs) as [ys|e] eqn:Hxs; simpl in H; [|discriminate].
    inversion H; subst. constructor; auto.
Qed.

Lemma rfilter_total {A} (p : A -> result bool) (q : A -> bool) (l : list A) :
  Forall (fun x => p x = Ok (q x)) l -> rfilter p l = Ok (filter q l).
Proof.
  induction 1 as [|x xs Hx _ IH]; simpl; [reflexivity|].
  rewrite Hx, IH. simpl. reflexivity.
Qed.

(** ** Strings *)

Lemma prefix_app (p r : string) : String.prefix p (p ++ r) = true.
Proof.
  induction p as [|c p IH]; simpl.
  - destruct r; reflexivity.
  - destruct (ascii_dec c c) as [_|n]; [exact IH | congruence].
Qed.

Lemma prefix_inv (p s : string) :
  String.prefix p s = true -> exists r, s = p ++ r.
Proof.
  revert s. induction p as [|c p IH]; intros s H.
  - exists s. reflexivity.
  - destruct s as [|c' s]; simpl in H; [discriminate|].
    destruct (ascii_dec c c') as [->|_]; [|discriminate].
    destruct (IH _ H) as [r ->]. exists r. reflexivity.
Qed.

Lemma contains_cons (needle : string) (c : ascii) (hay : string) :
  contains needle (String c hay)
  = (String.prefix needle (String c hay) || contains needle hay)%bool.
Proof. reflexivity. Qed.

(** [contains] decides the substring relation. *)
Lemma contains_iff (needle hay : string) :
  contains needle hay = true <-> exists a b, hay = a ++ needle ++ b.
Proof.
  split.
  - induction hay as [|c hay IH]; intros H.
    + destruct needle; [|discriminate].
      exists EmptyString, EmptyString. reflexivity.
    + rewrite contains_cons in H. apply orb_true_iff in H. destruct H as [H|H].
      * destruct (prefix_inv _ _ H) as [r Hr]. exists EmptyString, r. exact Hr.
      * destruct (IH H) as (a & b & ->). exists (String c a), b. reflexivity.
  - intros (a & b & ->). induction a as [|c a IH].
    + change (EmptyString ++ needle ++ b) with (needle ++ b).
      destruct (needle ++ b) as [|c r] eqn:E.
      * destruct needle; [reflexivity | discriminate].
      * rewrite contains_cons, <- E, prefix_app. reflexivity.
    + change (String c a ++ needle ++ b) with (String c (a ++ needle ++ b)).
      rewrite contains_cons, IH. apply orb_true_r.
Qed.

Lemma contains_empty (hay : string) : contains EmptyString hay = true.
Proof. destruct hay; reflexivity. Qed.

(** ** Dicts and the storage keys *)

Lemma dict_get_not_key (k : string) (d : dict) :
  ~ In k (keys d) -> dict_get k d = None.
Proof.
  induction d as [|[k' v] d IH]; simpl; intros H; [reflexivity|].
  destruct (String.eqb_spec k k') as [->|_].
  - exfalso. apply H. now left.
  - apply IH. intros Hin. apply H. now right.
Qed.

Lemma mem_In (k : string) (l : list string) : mem k l = true <-> In k l.
Proof.
  unfold mem. rewrite existsb_exists. split.
  - intros (x & Hin & Heq). apply String.eqb_eq in Heq. now subst.
  - intros Hin. exists k. split; [exact Hin | apply String.eqb_refl].
Qed.

Lemma strip_storage_removes (d : dict) : no_storage_keys (strip_storage d).
Proof.
  intros k Hk. apply dict_get_not_key. unfold keys, strip_storage.
  intros Hin. apply in_map_iff in Hin. destruct Hin as ([k' v] & Heq & Hin).
  simpl in Heq. subst k'. apply filter_In in Hin. destruct Hin as [_ Hneg].
  cbn [fst] in Hneg. apply mem_In in Hk. rewrite Hk in Hneg. discriminate.
Qed.

Lemma strip_storage_keeps (k : string) (d : dict) :
  mem k storage_keys = false -> dict_get k (strip_storage d) = dict_get k d.
Proof.
  intros Hk. unfold strip_storage.
  induction d as [|[k' v] d IH]; [reflexivity|].
  cbn [filter fst dict_get].
  destruct (String.eqb_spec k k') as [<-|Hne].
  - rewrite Hk. cbn [negb dict_get]. now rewrite String.eqb_refl.
  - apply String.eqb_neq in Hne.
    destruct (mem k' storage_keys); cbn [negb dict_get]; [exact IH|].
    now rewrite Hne.
Qed.

(** ** Models *)

Lemma validate_field_name (kw : dict) (f : field) (k : string) (v : value) :
  validate_field kw f = Ok (k, v) -> k = fname f.
Proof.
  unfold validate_field. intros H.
  destruct (dict_get (fname f) kw) as [w|].
  - destruct w;
      try (destruct (check f _); simpl in H; inversion H; reflexivity).
    destruct (foptional f); inversion H; reflexivity.
  - destruct (fdefault f); inversion H; reflexivity.
Qed.

(** A model has exactly the attributes of its schema, in their order. *)
Lemma validate_keys (sch : schema) (kw r : dict) :
  validate sch kw = Ok r -> keys r = map fname sch.
Proof.
  unfold validate. intros H. apply rmap_Forall2 in H.
  induction H as [|f [k v] sch' r' Hf _ IH]; simpl; [reflexivity|].
  apply validate_field_name in Hf. now rewrite Hf, IH.
Qed.

(** The value of an attribute of a model is what its field made of the
    keyword arguments. *)
Lemma validate_attribute (sch : schema) (kw r : dict) (k : string) (v : value) :
  validate sch kw = Ok r ->
  dict_get k r = Some v ->
  exists f, In f sch /\ validate_field kw f = Ok (k, v).
Proof.
  unfold validate. intros H. apply rmap_Forall2 in H.
  induction H as [|f [k' v'] sch' r' Hf _ IH]; simpl; intros Hget;
    [discriminate|].
  destruct (String.eqb_spec k k') as [->|_].
  - inversion Hget; subst. exists f. split; [now left | exact Hf].
  - destruct (IH Hget) as (g & Hin & Hg). exists g.
    split; [now right | exact Hg].
Qed.

Lemma validate_has_attribute (sch : schema) (kw r : dict) (f : field) :
  validate sch kw = Ok r -> In f sch -> exists v, dict_get (fname f) r = Some v.
Proof.
  unfold validate. intros H. apply rmap_Forall2 in H.
  induction H as [|g [k v] sch' r' Hg _ IH]; simpl; intros Hin;
    [contradiction|].
  destruct (String.eqb_spec (fname f) k) as [_|Hne]; [now exists v|].
  destruct Hin as [->|Hin]; [|now apply IH].
  apply validate_field_name in Hg. congruence.
Qed.

Lemma model_no_storage_keys (sch : schema) (kw r : dict) :
  (forall k, In k storage_keys -> ~ In k (map fname sch)) ->
  validate sch kw = Ok r -> no_storage_keys r.
Proof.
  intros Hsch H k Hk. apply dict_get_not_key.
  rewrite (validate_keys _ _ _ H). now apply Hsch.
Qed.

(** No model of [schemas.py] declares an attribute with the name of a
    storage key. *)
Lemma schemas_without_storage_keys (sch : schema) :
  In sch [Program; FacultySchema; EventSchema; AdmissionSchema; PyqSchema] ->
  forall k, In k storage_keys -> ~ In k (map fname sch).
Proof.
  intros Hsch k Hk Hin.
  simpl in Hsch.
  repeat (destruct Hsch as [<-|Hsch]; [
    simpl in Hk, Hin;
    repeat (destruct Hk as [<-|Hk]; [
      repeat (destruct Hin as [Hin|Hin]; [discriminate Hin|]); exact Hin |]);
    exact Hk |]).
  exact Hsch.
Qed.

Lemma to_models_stripped (sch : schema) (docs out : list dict) :
  to_models sch docs = Ok out -> stripped_models sch out.
Proof.
  intros H. exists docs. apply rmap_Forall2 in H.
  induction H; constructor; auto using strip_storage_removes.
Qed.

Lemma to_models_no_storage_keys (sch : schema) (docs out : list dict) :
  In sch [Program; FacultySchema; EventSchema; AdmissionSchema; PyqSchema] ->
  to_models sch docs = Ok out -> Forall no_storage_keys out.
Proof.
  intros Hsch H. apply rmap_Forall2 in H.
  induction H as [|d r docs' out' Hr _ IH]; constructor; [|exact IH].
  eapply model_no_storage_keys; [|exact Hr].
  now apply schemas_without_storage_keys.
Qed.

(** ** The monad *)

Lemma bind_ok {S A B} (m : M S A) (f : A -> M S B) (s s' : S) (b : B) :
  bind m f s = (s', Ok b) ->
  exists a s1, m s = (s1, Ok a) /\ f a s1 = (s', Ok b).
Proof.
  unfold bind. destruct (m s) as [s1 [a|e]]; intros H; [|discriminate].
  now exists a, s1.
Qed.

Lemma lift_ok {S A} (r : result A) (s s' : S) (a : A) :
  lift r s = (s', Ok a) -> s' = s /\ r = Ok a.
Proof. unfold lift. intros H. inversion H. auto. Qed.

Lemma try_pass_returns {S} (body : M S unit) (s : S) :
  snd (try_pass body s) = Ok tt.
Proof. unfold try_pass. destruct (body s) as [s' [u|e]]; reflexivity. Qed.

(** ** The search step *)

Lemma filter_all {A} (p : A -> bool) (l : list A) :
  (forall x, p x = true) -> filter p l = l.
Proof.
  intros Hp. induction l as [|x l IH]; simpl; [reflexivity|].
  now rewrite Hp, IH.
Qed.

Lemma search_cond_hit (q : string) (d : dict) :
  text_fields_ok d -> search_cond (lower q) d = Ok (search_hit q d).
Proof.
  intros [Hc Ht]. unfold search_cond, search_hit, text_of, dict_get_or.
  destruct Hc as [-> | [c ->]], Ht as [-> | [t ->]]; reflexivity.
Qed.

(** When the condition can be evaluated, it is the search predicate. *)
Lemma search_cond_ok (q : string) (d : dict) (b : bool) :
  search_cond (lower q) d = Ok b -> b = search_hit q d.
Proof.
  unfold search_cond, search_hit, text_of, dict_get_or, lower_of.
  destruct (dict_get "course_code" d) as [[]|];
    destruct (dict_get "course_title" d) as [[]|];
    cbn [rbind]; intros H; inversion H; reflexivity.
Qed.

Lemma rfilter_ok {A} (p : A -> result bool) (q : A -> bool) (l kept : list A) :
  (forall x b, p x = Ok b -> b = q x) ->
  rfilter p l = Ok kept -> kept = filter q l.
Proof.
  intros Hp. revert kept. induction l as [|x xs IH]; simpl; intros kept H.
  - now inversion H.
  - destruct (p x) as [b|e] eqn:Hx; simpl in H; [|discriminate].
    destruct (rfilter p xs) as [ys|e] eqn:Hxs; simpl in H; [|discriminate].
    inversion H; subst. rewrite <- (Hp x b Hx), <- (IH ys eq_refl).
    reflexivity.
Qed.

(** Whenever the search step returns, it has kept the hits. *)
Lemma search_docs_ok (q : string) (docs kept : list dict) :
  search_docs (Some q) docs = Ok kept -> kept = filter (search_hit q) docs.
Proof.
  unfold search_docs. destruct q as [|c q]; cbn [str_truthy]; intros H.
  - inversion H; subst. symmetry. apply filter_all.
    intros d. unfold search_hit. apply contains_empty.
  - eapply rfilter_ok; [|exact H]. intros d b. apply search_cond_ok.
Qed.

Lemma search_docs_filter (q : string) (docs : list dict) :
  Forall text_fields_ok docs ->
  search_docs (Some q) docs = Ok (filter (search_hit q) docs).
Proof.
  intros Hdocs. unfold search_docs. destruct q as [|c q].
  - cbn [str_truthy]. rewrite filter_all; [reflexivity|].
    intros d. unfold search_hit. apply contains_empty.
  - cbn [str_truthy]. apply rfilter_total.
    eapply Forall_impl; [|exact Hdocs]. intros d Hd. now apply search_cond_hit.
Qed.

(** ** The filter of [list_pyqs] *)

Lemma pyq_filter_entries
    program department semester course_code year exam_type :
  pyq_filter program department semester course_code year exam_type
  = (str_entry "program" program ++ str_entry "department" department
     ++ int_entry "semester" semester ++ str_entry "course_code" course_code
     ++ int_entry "year" year ++ str_entry "exam_type" exam_type)%list.
Proof.
  unfold pyq_filter, set_if_truthy, set_if_not_none, str_entry, int_entry.
  destruct program as [p|]; [destruct (str_truthy p)|];
  (destruct department as [d|]; [destruct (str_truthy d)|]);
  (destruct semester as [n|]);
  (destruct course_code as [c|]; [destruct (str_truthy c)|]);
  (destruct year as [y|]);
  (destruct exam_type as [e|]; [destruct (str_truthy e)|]);
  reflexivity.
Qed.

(** C2, as amended.  The filter that [list_pyqs] builds holds, in the fixed
    order program, department, semester, course_code, year, exam_type, one
    entry for each string parameter that is given and not empty and one for
    each integer parameter that is given, and nothing else; no key occurs
    twice. *)
Theorem pyq_filter_exact :
  forall (program department : option string) (semester : option Z)
         (course_code : option string) (year : option Z)
         (exam_type : option string),
    let filter_q :=
      pyq_filter program department semester course_code year exam_type in
    filter_q
    = (str_entry "program" program ++ str_entry "department" department
       ++ int_entry "semester" semester ++ str_entry "course_code" course_code
       ++ int_entry "year" year ++ str_entry "exam_type" exam_type)%list
    /\ NoDup (keys filter_q).
Proof.
  intros. subst filter_q. split; [apply pyq_filter_entries|].
  rewrite pyq_filter_entries. unfold str_entry, int_entry, keys.
  destruct program as [p|]; [destruct (str_truthy p)|];
  (destruct department as [d|]; [destruct (str_truthy d)|]);
  (destruct semester as [n|]);
  (destruct course_code as [c|]; [destruct (str_truthy c)|]);
  (destruct year as [y|]);
  (destruct exam_type as [e|]; [destruct (str_truthy e)|]);
  cbn [app map fst];
  repeat (constructor; [cbn [In]; intuition discriminate|]);
  constructor.
Qed.

(** C2, as stated, fails: the parameter [program] is given (it is not
    [None]) and the filter has no entry for it. *)
Lemma pyq_filter_skips_empty_string :
  pyq_filter (Some EmptyString) None None None None None = []
  /\ dict_get "program"
       (pyq_filter (Some EmptyString) None None None None None) = None.
Proof. split; reflexivity. Qed.

(** ** Handlers over any store *)

Section AnyStore.
Context {DB S : Type} {store : DocumentStore DB S}.

Lemma truthy_state (db : option DB) (s s' : S) (r : result bool) :
  truthy db s = (s', r) -> s' = s.
Proof. destruct db; unfold truthy, lift, ret; intros H; now inversion H. Qed.

Lemma truthy_none (s : S) : truthy (@None DB) s = (s, Ok false).
Proof. reflexivity. Qed.

(** What [docs_if] hands on was found by the store, unless it is empty. *)
Lemma docs_if_ok (db : option DB) (c : string) (f : dict) (s s' : S)
    (docs : list dict) :
  docs_if db c f s = (s', Ok docs) ->
  docs = [] \/ exists h, db = Some h /\ get_documents h c f s = (s', Ok docs).
Proof.
  unfold docs_if. intros H. apply bind_ok in H. destruct H as (b & s1 & Hb & H).
  pose proof (truthy_state _ _ _ _ Hb) as ->.
  destruct db as [h|]; [destruct b|].
  - right. now exists h.
  - left. inversion H. reflexivity.
  - left. inversion H. reflexivity.
Qed.

(** The filter of a one-parameter handler is empty or the single entry of
    its parameter, and computing it leaves the store alone. *)
Lemma filter_if_ok (key : string) (p : option string) (db : option DB)
    (s s' : S) (f : dict) :
  filter_if key p db s = (s', Ok f) ->
  s' = s /\ (f = [] \/ exists x, p = Some x /\ f = [(key, VStr x)]).
Proof.
  unfold filter_if. destruct p as [x|]; [destruct (str_truthy x)|].
  - intros H. apply bind_ok in H. destruct H as (b & s1 & Hb & H).
    pose proof (truthy_state _ _ _ _ Hb) as ->. inversion H; subst.
    split; [reflexivity|]. destruct b; [right; now exists x | now left].
  - intros H. inversion H. auto.
  - intros H. inversion H. auto.
Qed.

Lemma handler_models (sch : schema) (m : M S (list dict)) (s s' : S)
    (out : list dict) :
  (docs <- m ;; lift (to_models sch docs)) s = (s', Ok out) ->
  exists docs s1, m s = (s1, Ok docs) /\ to_models sch docs = Ok out.
Proof.
  intros H. apply bind_ok in H. destruct H as (docs & s1 & Hm & H).
  apply lift_ok in H. destruct H as [_ H]. now exists docs, s1.
Qed.

Lemma list_pyqs_models (db : option DB) program department semester course_code
    year exam_type search (s s' : S) (out : list dict) :
  list_pyqs db program department semester course_code year exam_type search s
  = (s', Ok out) ->
  exists docs, to_models PyqSchema docs = Ok out.
Proof.
  unfold list_pyqs. destruct db as [h|].
  - intros H. apply bind_ok in H. destruct H as (docs & s1 & _ & H).
    apply handler_models in H. destruct H as (docs' & _ & _ & H).
    now exists docs'.
  - intros H. inversion H. now exists [].
Qed.

Lemma models_are_stripped (sch : schema) (docs out : list dict) :
  In sch [Program; FacultySchema; EventSchema; AdmissionSchema; PyqSchema] ->
  to_models sch docs = Ok out ->
  stripped_models sch out /\ Forall no_storage_keys out.
Proof.
  intros Hsch H. split.
  - eapply to_models_stripped; exact H.
  - eapply to_models_no_storage_keys; [exact Hsch | exact H].
Qed.

(** C4.  Whatever a list handler returns is a list of models, each built
    from a stored document from which [_id], [created_at] and [updated_at]
    were removed first, and no returned record has any of the three keys. *)
Theorem list_handlers_strip_storage_keys :
  forall (db : option DB) (s s' : S) (out : list dict),
    (list_programs db s = (s', Ok out) ->
       stripped_models Program out /\ Forall no_storage_keys out)
    /\ (forall department, list_faculty db department s = (s', Ok out) ->
          stripped_models FacultySchema out /\ Forall no_storage_keys out)
    /\ (forall category, list_events db category s = (s', Ok out) ->
          stripped_models EventSchema out /\ Forall no_storage_keys out)
    /\ (forall status, list_admissions db status s = (s', Ok out) ->
          stripped_models AdmissionSchema out /\ Forall no_storage_keys out)
    /\ (forall program department semester course_code year exam_type search,
          list_pyqs db program department semester course_code year exam_type
            search s = (s', Ok out) ->
          stripped_models PyqSchema out /\ Forall no_storage_keys out).
Proof.
  intros db s s' out.
  split; [|split; [|split; [|split]]].
  - intros H. apply handler_models in H. destruct H as (docs & _ & _ & H).
    eapply models_are_stripped; [|exact H]. simpl; tauto.
  - intros department H. apply bind_ok in H. destruct H as (f & s1 & _ & H).
    apply handler_models in H. destruct H as (docs & _ & _ & H).
    eapply models_are_stripped; [|exact H]. simpl; tauto.
  - intros category H. apply bind_ok in H. destruct H as (f & s1 & _ & H).
    apply handler_models in H. destruct H as (docs & _ & _ & H).
    eapply models_are_stripped; [|exact H]. simpl; tauto.
  - intros status H. apply bind_ok in H. destruct H as (f & s1 & _ & H).
    apply handler_models in H. destruct H as (docs & _ & _ & H).
    eapply models_are_stripped; [|exact H]. simpl; tauto.
  - intros program department semester course_code year exam_type search H.
    apply list_pyqs_models in H. destruct H as (docs & H).
    eapply models_are_stripped; [|exact H]. simpl; tauto.
Qed.

(** C8.  [seed_demo_data] returns normally whatever the store does: with no
    handle it returns at once, and with a handle every exception of the
    body (a failing count, a failing insert, a model that does not
    validate) is caught. *)
Theorem seed_demo_data_never_raises :
  forall (db : option DB) (today : Z) (s : S),
    snd (seed_demo_data db today s) = Ok tt.
Proof.
  intros [h|] today s; unfold seed_demo_data.
  - apply try_pass_returns.
  - reflexivity.
Qed.

(** C3.  A [semester] below 1 or above 12 is answered with the validation
    error and the store is left as it was, whatever the store is; a
    [semester] from 1 to 12 reaches the handler, whose outcome is the
    response. *)
Theorem semester_out_of_range_rejected :
  forall (db : option DB) (program department : option string) (n : Z)
         (course_code : option string) (year : option Z)
         (exam_type search : option string) (s : S),
    ((n < 1 \/ 12 < n) ->
       get_api_pyqs db program department (Some n) course_code year exam_type
         search s = (s, Http422))
    /\ (1 <= n <= 12 ->
          get_api_pyqs db program department (Some n) course_code year exam_type
            search s
          = respond (list_pyqs db program department (Some n) course_code year
                       exam_type search) s
          /\ snd (get_api_pyqs db program department (Some n) course_code year
                    exam_type search s) <> Http422).
Proof.
  intros. unfold get_api_pyqs, query_ge_le. split.
  - intros Hn.
    destruct (Z.leb_spec 1 n), (Z.leb_spec n 12); cbn [andb];
      try reflexivity; lia.
  - intros Hn.
    destruct (Z.leb_spec 1 n), (Z.leb_spec n 12); cbn [andb]; try lia.
    split; [reflexivity|]. unfold respond.
    destruct (list_pyqs _ _ _ _ _ _ _ _ s) as [s' [body|e]]; discriminate.
Qed.

(** C7, as amended.  With no handle ([db] is [None]) every list handler
    returns the empty list for all parameter values and leaves the store
    alone, and every list route answers with an empty list whenever the
    request passes validation, that is, whenever [semester] is absent or
    from 1 to 12. *)
Theorem no_store_gives_empty_lists :
  forall (s : S),
    list_programs (@None DB) s = (s, Ok [])
    /\ (forall department, list_faculty (@None DB) department s = (s, Ok []))
    /\ (forall category, list_events (@None DB) category s = (s, Ok []))
    /\ (forall status, list_admissions (@None DB) status s = (s, Ok []))
    /\ (forall program department semester course_code year exam_type search,
          list_pyqs (@None DB) program department semester course_code year
            exam_type search s = (s, Ok []))
    /\ get_api_programs (@None DB) s = (s, Http200 [])
    /\ (forall department,
          get_api_faculty (@None DB) department s = (s, Http200 []))
    /\ (forall category,
          get_api_events (@None DB) category s = (s, Http200 []))
    /\ (forall status,
          get_api_admissions (@None DB) status s = (s, Http200 []))
    /\ (forall program department semester course_code year exam_type search,
          query_ge_le 1 12 semester = true ->
          get_api_pyqs (@None DB) program department semester course_code year
            exam_type search s = (s, Http200 [])).
Proof.
  intros s.
  assert (Hone : forall key p sch c,
             (filter_q <- filter_if key p (@None DB) ;;
              docs <- docs_if None c filter_q ;;
              lift (to_models sch docs)) s = (s, Ok [])).
  { intros key p sch c. destruct p as [x|]; [destruct x|]; reflexivity. }
  repeat apply conj; try reflexivity.
  - intros department. apply Hone.
  - intros category. apply Hone.
  - intros status. apply Hone.
  - intros department. unfold get_api_faculty, respond, list_faculty.
    now rewrite Hone.
  - intros category. unfold get_api_events, respond, list_events.
    now rewrite Hone.
  - intros status. unfold get_api_admissions, respond, list_admissions.
    now rewrite Hone.
  - intros program department semester course_code year exam_type search Hq.
    unfold get_api_pyqs. rewrite Hq. reflexivity.
Qed.

(** C10.  An empty string for a string parameter is the same as no
    parameter: no entry goes into the filter, and the handler is the one of
    the call without the parameter. *)
Theorem empty_string_is_no_filter :
  forall (db : option DB),
    let e := Some EmptyString in
    filter_if "department" e db = ret []
    /\ filter_if "category" e db = ret []
    /\ filter_if "status" e db = ret []
    /\ list_faculty db e = list_faculty db None
    /\ list_events db e = list_events db None
    /\ list_admissions db e = list_admissions db None
    /\ (forall program department semester course_code year exam_type search,
          pyq_filter e department semester course_code year exam_type
          = pyq_filter None department semester course_code year exam_type
          /\ pyq_filter program department semester e year exam_type
             = pyq_filter program department semester None year exam_type
          /\ pyq_filter program department semester course_code year e
             = pyq_filter program department semester course_code year None
          /\ list_pyqs db e department semester course_code year exam_type
               search
             = list_pyqs db None department semester course_code year exam_type
                 search
          /\ list_pyqs db program department semester e year exam_type search
             = list_pyqs db program department semester None year exam_type
                 search
          /\ list_pyqs db program department semester course_code year e
               search
             = list_pyqs db program department semester course_code year None
                 search).
Proof.
  intros db. repeat apply conj; try reflexivity.
  intros program department semester course_code year exam_type search.
  repeat apply conj; reflexivity.
Qed.

(** A [str] attribute of a faculty model is the string that the document
    had under that key. *)
Lemma faculty_department_kept (kw r : dict) (x : string) :
  validate FacultySchema kw = Ok r ->
  dict_get "department" kw = Some (VStr x) ->
  dict_get "department" r = Some (VStr x).
Proof.
  intros Hr Hkw.
  destruct (validate_has_attribute _ _ _ (req "department" TStr) Hr) as [v Hv].
  { simpl. tauto. }
  cbn [fname req] in Hv. rewrite Hv. f_equal.
  destruct (validate_attribute _ _ _ _ _ Hr Hv) as (f & Hin & Hf).
  pose proof (validate_field_name _ _ _ _ Hf) as Hname.
  simpl in Hin.
  repeat (destruct Hin as [<-|Hin]; [try discriminate Hname|]);
    [|contradiction].
  unfold validate_field in Hf. cbn [fname req] in Hf. rewrite Hkw in Hf.
  simpl in Hf. now inversion Hf.
Qed.

(** C9.  On a store that honours exact-match filters, every record that
    [list_faculty] returns for a non-empty department [d] has [d] itself as
    its department. *)
Theorem list_faculty_exact_department :
  honours_filters store ->
  forall (db : option DB) (d : string) (s s' : S) (out : list dict),
    d <> EmptyString ->
    list_faculty db (Some d) s = (s', Ok out) ->
    Forall (fun r => dict_get "department" r = Some (VStr d)) out.
Proof.
  intros Hstore db d s s' out Hd H.
  destruct d as [|c d']; [congruence|].
  unfold list_faculty, filter_if, docs_if, truthy in H. cbn [str_truthy] in H.
  destruct db as [h|].
  - unfold bind, lift, ret in H.
    destruct (db_bool h) as [[|]|e] eqn:Hb.
    + destruct (get_documents h "faculty" _ s)
        as [s1 [docs|e]] eqn:Hget; [|discriminate].
      inversion H as [[Hs Hout]]. clear H. subst s1.
      apply Hstore in Hget.
      apply rmap_Forall2 in Hout.
      induction Hout as [|doc r docs' out' Hr _ IH]; [constructor|].
      inversion Hget as [|? ? Hdoc Hrest]; subst.
      constructor; [|now apply IH].
      apply faculty_department_kept with (kw := strip_storage doc); [exact Hr|].
      rewrite strip_storage_keeps; [|reflexivity].
      apply Hdoc. reflexivity.
    + inversion H. constructor.
    + discriminate.
  - inversion H. constructor.
Qed.

(** C1, as amended.  Whenever a call with the search term [q] returns, it
    returns the models of exactly those retrieved documents for which the
    lowercased [q] occurs in the lowercased course code, one space, the
    lowercased course title (an absent field reads as the empty string);
    and the call does return that, or raises what building the models
    raises, when the retrieved documents have text or nothing in the two
    fields.  The term is used after retrieval only: the documents are
    those that the store returned for the filter, which is built without
    the term and has no entry for it.  A record with course code [CS101] is
    a hit for [cs101]; one with course code [CS202] and title
    [Data Structures] is not. *)
Theorem list_pyqs_search_after_retrieval :
  forall (h : DB) (program department : option string) (semester : option Z)
         (course_code : option string) (year : option Z)
         (exam_type : option string) (q : string) (s s' : S),
    let filter_q :=
      pyq_filter program department semester course_code year exam_type in
    (forall out,
        list_pyqs (Some h) program department semester course_code year
          exam_type (Some q) s = (s', Ok out) ->
        exists docs,
          get_documents h "pyq" filter_q s = (s', Ok docs)
          /\ to_models PyqSchema (filter (search_hit q) docs) = Ok out)
    /\ (forall docs,
          get_documents h "pyq" filter_q s = (s', Ok docs) ->
          Forall text_fields_ok docs ->
          list_pyqs (Some h) program department semester course_code year
            exam_type (Some q) s
          = (s', to_models PyqSchema (filter (search_hit q) docs)))
    /\ dict_get "search" filter_q = None
    /\ (forall d, dict_get "course_code" d = Some (VStr "CS101") ->
                  search_hit "cs101" d = true)
    /\ (forall d, dict_get "course_code" d = Some (VStr "CS202") ->
                  dict_get "course_title" d = Some (VStr "Data Structures") ->
                  search_hit "cs101" d = false).
Proof.
  intros h program department semester course_code year exam_type q s s'
         filter_q.
  repeat apply conj.
  - intros out H. unfold list_pyqs in H. fold filter_q in H.
    apply bind_ok in H. destruct H as (docs & s1 & Hget & H).
    apply bind_ok in H. destruct H as (kept & s2 & Hkept & H).
    apply lift_ok in Hkept. destruct Hkept as [-> Hkept].
    apply lift_ok in H. destruct H as [-> H].
    exists docs. split; [exact Hget|].
    now rewrite <- (search_docs_ok q docs kept Hkept).
  - intros docs Hget Hdocs. unfold list_pyqs, bind. fold filter_q.
    rewrite Hget. unfold lift.
    rewrite (search_docs_filter q docs Hdocs). reflexivity.
  - subst filter_q. rewrite pyq_filter_entries. unfold str_entry, int_entry.
    destruct program as [p|]; [destruct (str_truthy p)|];
    (destruct department as [d|]; [destruct (str_truthy d)|]);
    (destruct semester as [n|]);
    (destruct course_code as [c|]; [destruct (str_truthy c)|]);
    (destruct year as [y|]);
    (destruct exam_type as [e|]; [destruct (str_truthy e)|]);
    reflexivity.
  - intros d Hc. unfold search_hit, text_of. rewrite Hc. reflexivity.
  - intros d Hc Ht. unfold search_hit, text_of. rewrite Hc, Ht. reflexivity.
Qed.

End AnyStore.

(** ** The in-memory store *)

Lemma value_eqb_eq : forall a b : value, value_eqb a b = true -> a = b.
Proof.
  fix IH 1. intros a b. destruct a, b; simpl; try discriminate; intros H.
  - reflexivity.
  - f_equal. now apply Bool.eqb_prop.
  - f_equal. now apply Z.eqb_eq.
  - f_equal. now apply String.eqb_eq.
  - f_equal. now apply Z.eqb_eq.
  - f_equal. now apply Z.eqb_eq.
  - f_equal. now apply Nat.eqb_eq.
  - f_equal. revert l0 H.
    induction l as [|x xs IHl]; intros [|y ys] H; try discriminate;
      [reflexivity|].
    apply andb_true_iff in H. destruct H as [Hx Hxs].
    f_equal; [now apply IH | now apply IHl].
Qed.

Lemma dict_get_In (k : string) (v : value) (d : dict) :
  dict_get k d = Some v -> In (k, v) d.
Proof.
  induction d as [|[k' v'] d IH]; simpl; [discriminate|].
  destruct (String.eqb_spec k k') as [->|_]; intros H.
  - inversion H. now left.
  - right. now apply IH.
Qed.

(** The in-memory store honours exact-match filters. *)
Lemma mem_store_honours_filters : honours_filters MemStore.mem_store.
Proof.
  intros h c f s s' docs H. simpl in H. inversion H; subst. clear H.
  apply Forall_forall. intros d Hd k v Hk.
  apply filter_In in Hd. destruct Hd as [_ Hm].
  unfold MemStore.matches in Hm. rewrite forallb_forall in Hm.
  specialize (Hm (k, v) (dict_get_In _ _ _ Hk)). cbn [fst snd] in Hm.
  destruct (dict_get k d) as [w|]; [|discriminate].
  now rewrite (value_eqb_eq _ _ Hm).
Qed.

Lemma find_many_all (s : MemStore.state) (c : string) :
  MemStore.find_many s c [] = MemStore.colls s c.
Proof. unfold MemStore.find_many. now apply filter_all. Qed.

Lemma count_documents_count (s : MemStore.state) (c : string) :
  count_documents tt c [] s = (s, Ok (count s c)).
Proof. reflexivity. Qed.

Lemma count_zero (s : MemStore.state) (c : string) :
  (count s c =? 0)
  = match MemStore.colls s c with [] => true | _ :: _ => false end.
Proof.
  unfold count. rewrite find_many_all. now destruct (MemStore.colls s c).
Qed.

Lemma if_empty_mem (c : string) (body : M MemStore.state unit)
    (s : MemStore.state) :
  if_empty tt c body s
  = match MemStore.colls s c with [] => body s | _ :: _ => (s, Ok tt) end.
Proof.
  unfold if_empty, bind. cbn [count_documents MemStore.mem_store].
  fold (count s c). rewrite count_zero. now destruct (MemStore.colls s c).
Qed.

Lemma create_mem (c : string) (sch : schema) (kw m : dict)
    (s : MemStore.state) :
  validate sch kw = Ok m ->
  create tt c sch kw s = (fst (MemStore.insert_one c m s), Ok tt).
Proof. intros H. unfold create, bind, lift. rewrite H. reflexivity. Qed.

Lemma if_empty_create1 (c : string) (sch : schema) (kw m : dict)
    (s : MemStore.state) :
  validate sch kw = Ok m ->
  if_empty tt c (create tt c sch kw) s = (fill c [m] s, Ok tt).
Proof.
  intros H. rewrite if_empty_mem. unfold fill.
  destruct (MemStore.colls s c); [|reflexivity].
  now rewrite (create_mem c sch kw m s H).
Qed.

Lemma if_empty_create2 (c : string) (sch : schema) (kw1 kw2 m1 m2 : dict)
    (s : MemStore.state) :
  validate sch kw1 = Ok m1 ->
  validate sch kw2 = Ok m2 ->
  if_empty tt c (create tt c sch kw1 ;;; create tt c sch kw2) s
  = (fill c [m1; m2] s, Ok tt).
Proof.
  intros H1 H2. rewrite if_empty_mem. unfold fill.
  destruct (MemStore.colls s c); [|reflexivity].
  unfold bind at 1. rewrite (create_mem c sch kw1 m1 s H1).
  now rewrite (create_mem c sch kw2 m2 _ H2).
Qed.

Lemma bind_step {S A B} (m : M S A) (k : A -> M S B) (s s1 : S) (a : A) :
  m s = (s1, Ok a) -> bind m k s = k a s1.
Proof. intros H. unfold bind. now rewrite H. Qed.

(** The seeder fills the five collections one after the other. *)
Lemma seeded_fill (today : Z) (s : MemStore.state) :
  MemStore.seeded today s
  = fill "pyq" demo_pyqs
      (fill "admission" demo_admissions
         (fill "event" (demo_events today)
            (fill "faculty" demo_faculty
               (fill "program" demo_programs s)))).
Proof.
  unfold MemStore.seeded, MemStore.db, seed_demo_data, try_pass.
  erewrite bind_step by (apply if_empty_create2; reflexivity).
  erewrite bind_step by (apply if_empty_create2; reflexivity).
  erewrite bind_step by (apply if_empty_create2; reflexivity).
  erewrite bind_step by (apply if_empty_create1; reflexivity).
  erewrite if_empty_create1 by reflexivity.
  reflexivity.
Qed.

Lemma insert_one_other (c c' : string) (m : dict) (s : MemStore.state) :
  c' <> c ->
  MemStore.colls (fst (MemStore.insert_one c m s)) c' = MemStore.colls s c'.
Proof.
  intros Hne. cbn [MemStore.insert_one fst MemStore.colls].
  apply String.eqb_neq in Hne. now rewrite Hne.
Qed.

Lemma insert_one_length (c : string) (m : dict) (s : MemStore.state) :
  List.length (MemStore.colls (fst (MemStore.insert_one c m s)) c)
  = S (List.length (MemStore.colls s c)).
Proof.
  cbn [MemStore.insert_one fst MemStore.colls]. rewrite String.eqb_refl.
  rewrite length_app. cbn [List.length]. lia.
Qed.

Lemma insert_all_other (c c' : string) (models : list dict)
    (s : MemStore.state) :
  c' <> c -> MemStore.colls (insert_all c models s) c' = MemStore.colls s c'.
Proof.
  intros Hne. revert s. unfold insert_all.
  induction models as [|m ms IH]; intros s; cbn [fold_left]; [reflexivity|].
  rewrite IH. now apply insert_one_other.
Qed.

Lemma insert_all_length (c : string) (models : list dict) (s : MemStore.state) :
  List.length (MemStore.colls (insert_all c models s) c)
  = (List.length (MemStore.colls s c) + List.length models)%nat.
Proof.
  revert s. unfold insert_all.
  induction models as [|m ms IH]; intros s; cbn [fold_left List.length]; [lia|].
  rewrite IH, insert_one_length. lia.
Qed.

Lemma fill_other (c c' : string) (models : list dict) (s : MemStore.state) :
  c' <> c -> MemStore.colls (fill c models s) c' = MemStore.colls s c'.
Proof.
  intros Hne. unfold fill. destruct (MemStore.colls s c); [|reflexivity].
  now apply insert_all_other.
Qed.

Lemma fill_same (c : string) (models : list dict) (s : MemStore.state) :
  MemStore.colls s c <> [] -> fill c models s = s.
Proof.
  unfold fill. destruct (MemStore.colls s c); [congruence | reflexivity].
Qed.

Lemma fill_nonempty (c : string) (models : list dict) (s : MemStore.state) :
  models <> [] -> MemStore.colls (fill c models s) c <> [].
Proof.
  intros Hm. unfold fill. destruct (MemStore.colls s c) as [|d l] eqn:E.
  - intros Hnil. apply (f_equal (@List.length dict)) in Hnil.
    rewrite insert_all_length, E in Hnil. destruct models; [congruence|].
    cbn [List.length] in Hnil. lia.
  - rewrite E. discriminate.
Qed.

Lemma count_nonzero (s : MemStore.state) (c : string) :
  count s c <> 0 <-> MemStore.colls s c <> [].
Proof.
  unfold count. rewrite find_many_all.
  destruct (MemStore.colls s c); cbn [List.length]; split; intros H;
    try congruence; try discriminate; lia.
Qed.

(** After seeding, each of the five collections has a document. *)
Lemma seeded_nonempty (today : Z) (s : MemStore.state) (c : string) :
  In c seeded_collections -> MemStore.colls (MemStore.seeded today s) c <> [].
Proof.
  intros Hc. rewrite seeded_fill. simpl in Hc.
  destruct Hc as [<-|[<-|[<-|[<-|[<-|[]]]]]];
    repeat (rewrite fill_other by distinct_names);
    apply fill_nonempty; discriminate.
Qed.

(** Seeding leaves a collection that has a document as it is. *)
Lemma seeded_keeps (today : Z) (s : MemStore.state) (c : string) :
  MemStore.colls s c <> [] ->
  MemStore.colls (MemStore.seeded today s) c = MemStore.colls s c.
Proof.
  intros Hc. rewrite seeded_fill.
  assert (Hstep : forall c0 models s0,
             MemStore.colls s0 c = MemStore.colls s c ->
             MemStore.colls (fill c0 models s0) c = MemStore.colls s c).
  { intros c0 models s0 H0. destruct (String.eqb_spec c c0) as [->|Hne].
    - rewrite fill_same; [exact H0 | now rewrite H0].
    - now rewrite fill_other. }
  repeat apply Hstep. reflexivity.
Qed.

Lemma seeded_twice (today today' : Z) (s : MemStore.state) :
  MemStore.seeded today' (MemStore.seeded today s) = MemStore.seeded today s.
Proof.
  rewrite (seeded_fill today').
  set (s1 := MemStore.seeded today s).
  assert (H : forall c, In c seeded_collections -> MemStore.colls s1 c <> [])
    by (intros c; apply seeded_nonempty).
  rewrite (fill_same "program") by (apply H; simpl; tauto).
  rewrite (fill_same "faculty") by (apply H; simpl; tauto).
  rewrite (fill_same "event") by (apply H; simpl; tauto).
  rewrite (fill_same "admission") by (apply H; simpl; tauto).
  rewrite (fill_same "pyq") by (apply H; simpl; tauto).
  reflexivity.
Qed.

(** C5.  On the in-memory store, the seeder inserts into a collection only
    if its count with the empty filter is 0: a collection with a document
    is left as it is.  After a run each of the five collections has a
    document, so a second run changes nothing, and every collection's count
    stays what it was. *)
Theorem seeding_is_idempotent :
  forall (s : MemStore.state) (today today' : Z),
    let s1 := MemStore.seeded today s in
    let s2 := MemStore.seeded today' s1 in
    (forall c, count s2 c = count s1 c)
    /\ s2 = s1
    /\ (forall c, count s c <> 0 -> MemStore.colls s1 c = MemStore.colls s c)
    /\ (forall c, In c seeded_collections -> count s1 c <> 0).
Proof.
  intros s today today' s1 s2. subst s1 s2. repeat apply conj.
  - intros c. now rewrite seeded_twice.
  - apply seeded_twice.
  - intros c Hc. apply seeded_keeps. now apply count_nonzero.
  - intros c Hc. apply count_nonzero. now apply seeded_nonempty.
Qed.

(** C6.  On the in-memory store, when the five collections are empty, the
    programs listed after seeding are exactly the two demo programs. *)
Theorem seeded_programs_listed :
  forall (s : MemStore.state) (today : Z),
    (forall c, In c seeded_collections -> count s c = 0) ->
    snd (list_programs MemStore.db (MemStore.seeded today s))
    = Ok [ [("name", VStr "B.Tech Computer Science");
            ("department", VStr "CSE");
            ("level", VStr "UG"); ("duration_years", VInt 4);
            ("description", VStr "Core CS curriculum with electives in AI/ML");
            ("semesters", VInt 8)];
           [("name", VStr "M.Tech Data Science"); ("department", VStr "CSE");
            ("level", VStr "PG"); ("duration_years", VInt 2);
            ("description", VStr "Advanced DS/ML program");
            ("semesters", VInt 4)] ].
Proof.
  intros s today Hempty.
  assert (Hp : MemStore.colls s "program" = []).
  { specialize (Hempty "program" ltac:(simpl; tauto)).
    destruct (MemStore.colls s "program") eqn:E; [reflexivity|].
    exfalso. apply (proj2 (count_nonzero s "program")); [|exact Hempty].
    rewrite E. discriminate. }
  unfold list_programs, docs_if, truthy, MemStore.db, bind, lift.
  cbn [db_bool get_documents MemStore.mem_store snd].
  rewrite find_many_all, seeded_fill.
  repeat (rewrite fill_other by distinct_names).
  unfold fill. rewrite Hp.
  unfold insert_all, demo_programs. cbn [fold_left].
  unfold MemStore.insert_one. cbn [fst MemStore.colls].
  rewrite !String.eqb_refl, Hp. reflexivity.
Qed.

(** ** Concrete runs *)

(** C1, as stated, fails.  The seeded store holds one question paper, with
    course code [CS101] and title [Programming Fundamentals].  The term
    [1p] occurs in the concatenation of code and title and the handler does
    not return the paper; the term [1 p] does not occur in it and the
    handler returns the paper. *)
Lemma search_differs_from_plain_concatenation :
  MemStore.find_many seeded_store "pyq" [] = [stored_cs101]
  /\ spec_search_hit "1p" stored_cs101 = true
  /\ snd (list_pyqs MemStore.db None None None None None None (Some "1p")
            seeded_store) = Ok []
  /\ spec_search_hit "1 p" stored_cs101 = false
  /\ snd (list_pyqs MemStore.db None None None None None None (Some "1 p")
            seeded_store) = Ok demo_pyqs.
Proof. repeat apply conj; reflexivity. Qed.

Lemma list_pyqs_search_witness :
  list_pyqs MemStore.db None None None None None None (Some "cs101")
    seeded_store
  = (seeded_store,
     to_models PyqSchema (filter (search_hit "cs101") [stored_cs101]))
  /\ exists docs,
       get_documents tt "pyq" [] seeded_store = (seeded_store, Ok docs)
       /\ to_models PyqSchema (filter (search_hit "cs101") docs) = Ok demo_pyqs.
Proof.
  pose proof (list_pyqs_search_after_retrieval
                tt None None None None None None "cs101"
                seeded_store seeded_store) as (Hret & Hrun & _).
  split.
  - apply Hrun.
    + reflexivity.
    + constructor; [|constructor].
      split; right; eexists; reflexivity.
  - apply Hret. reflexivity.
Defined.

(** On the store that always fails, a [semester] out of range is still
    answered with the validation error, and one in range reaches the
    handler, which fails on its query. *)
Lemma semester_out_of_range_witness :
  get_api_pyqs (store := BrokenStore.broken_store) (Some tt)
    None None (Some 13) None None None None tt = (tt, Http422)
  /\ get_api_pyqs (store := BrokenStore.broken_store) (Some tt)
       None None (Some 0) None None None None tt = (tt, Http422)
  /\ get_api_pyqs (store := BrokenStore.broken_store) (Some tt)
       None None (Some 1) None None None None tt
     = (tt, Http500 BrokenStore.unreachable)
  /\ get_api_pyqs (store := BrokenStore.broken_store) (Some tt)
       None None (Some 12) None None None None tt
     = (tt, Http500 BrokenStore.unreachable).
Proof.
  repeat apply conj.
  - apply (proj1 (semester_out_of_range_rejected
                    (store := BrokenStore.broken_store)
                    (Some tt) None None 13 None None None None tt)).
    right. reflexivity.
  - apply (proj1 (semester_out_of_range_rejected
                    (store := BrokenStore.broken_store)
                    (Some tt) None None 0 None None None None tt)).
    left. reflexivity.
  - rewrite (proj1 (proj2 (semester_out_of_range_rejected
                             (store := BrokenStore.broken_store)
                             (Some tt) None None 1 None None None None tt)
                          ltac:(split; discriminate))).
    reflexivity.
  - rewrite (proj1 (proj2 (semester_out_of_range_rejected
                             (store := BrokenStore.broken_store)
                             (Some tt) None None 12 None None None None tt)
                          ltac:(split; discriminate))).
    reflexivity.
Defined.

(** The seeder on the store that always fails: the first count raises, the
    exception is caught, nothing is raised. *)
Example seed_on_broken_store :
  seed_demo_data (store := BrokenStore.broken_store) (Some tt) 0 tt
  = (tt, Ok tt).
Proof. reflexivity. Qed.

Lemma list_handlers_strip_witness :
  stripped_models Program demo_programs /\ Forall no_storage_keys demo_programs.
Proof.
  apply (proj1 (list_handlers_strip_storage_keys
                  MemStore.db seeded_store seeded_store demo_programs)).
  reflexivity.
Defined.

Lemma seeding_is_idempotent_witness :
  count (MemStore.seeded 1 seeded_store) "pyq" = count seeded_store "pyq"
  /\ MemStore.colls (MemStore.seeded 1 seeded_store) "pyq"
     = MemStore.colls seeded_store "pyq".
Proof.
  split.
  - apply (proj1 (seeding_is_idempotent MemStore.init 0 1)).
  - apply (proj1 (proj2 (proj2 (seeding_is_idempotent seeded_store 1 1)))).
    discriminate.
Defined.

Lemma seeded_programs_witness :
  snd (list_programs MemStore.db (MemStore.seeded 0 MemStore.init))
  = Ok demo_programs.
Proof.
  apply (seeded_programs_listed MemStore.init 0).
  intros c Hc. reflexivity.
Defined.

(** C7, as stated, fails for a parameter value that request validation
    turns down: with no handle, [semester=13] is answered with the
    validation error, not with an empty list. *)
Lemma no_store_semester_13_rejected :
  get_api_pyqs (@None unit) None None (Some 13) None None None None
    MemStore.init
  = (MemStore.init, Http422)
  /\ Http422 <> Http200 [].
Proof. split; [reflexivity | discriminate]. Qed.

Lemma no_store_witness :
  get_api_pyqs (@None unit) None None (Some 12) None None None (Some "cs101")
    MemStore.init
  = (MemStore.init, Http200 []).
Proof.
  apply (proj2 (proj2 (proj2 (proj2 (proj2 (proj2 (proj2 (proj2 (proj2
           (no_store_gives_empty_lists (DB := unit) MemStore.init)))))))))).
  reflexivity.
Defined.

Lemma list_faculty_exact_witness :
  list_faculty MemStore.db (Some "CSE") seeded_store
  = (seeded_store, Ok [nth 0 demo_faculty []])
  /\ Forall (fun r => dict_get "department" r = Some (VStr "CSE"))
            [nth 0 demo_faculty []].
Proof.
  split; [reflexivity|].
  apply (list_faculty_exact_department mem_store_honours_filters
           MemStore.db "CSE" seeded_store seeded_store).
  - discriminate.
  - reflexivity.
Defined.

(** * Further properties of the code *)

(** ** The search term and the separating space *)

Lemma lower_ascii_space (c : ascii) :
  Ascii.eqb (lower_ascii c) " " = Ascii.eqb c " ".
Proof.
  destruct c as [[] [] [] [] [] [] [] []]; reflexivity.
Qed.

Lemma space_free_lower (s : string) : space_free (lower s) = space_free s.
Proof.
  induction s as [|c s IH]; [reflexivity|].
  cbn [lower space_free]. now rewrite lower_ascii_space, IH.
Qed.

(** A prefix without a space ends before the separator. *)
Lemma prefix_before_space (n a b : string) :
  space_free n = true ->
  String.prefix n (a ++ String " " b) = String.prefix n a.
Proof.
  revert a. induction n as [|c n IH]; intros a Hn.
  - destruct a; reflexivity.
  - cbn [space_free] in Hn. apply andb_true_iff in Hn. destruct Hn as [Hc Hn].
    destruct a as [|x a].
    + cbn [append String.prefix].
      destruct (ascii_dec c " ") as [->|_]; [discriminate Hc | reflexivity].
    + cbn [append String.prefix].
      destruct (ascii_dec c x); [now apply IH | reflexivity].
Qed.

(** An occurrence of a term without a space in [a], a space, [b] is an
    occurrence in [a] or one in [b]. *)
Lemma contains_around_space (n a b : string) :
  space_free n = true ->
  contains n (a ++ String " " b) = (contains n a || contains n b)%bool.
Proof.
  intros Hn. induction a as [|x a IH].
  - pose proof (prefix_before_space n EmptyString b Hn) as H.
    change (EmptyString ++ String " " b) with (String " " b) in *.
    rewrite contains_cons, H. cbn [contains]. now rewrite orb_false_r.
  - pose proof (prefix_before_space n (String x a) b Hn) as H.
    change (String x a ++ String " " b)
      with (String x (a ++ String " " b)) in *.
    rewrite !contains_cons, IH, H. now rewrite orb_assoc.
Qed.

(** X1.  For a search term without a space, the condition of the search
    comprehension holds for a document exactly when the lowercased term
    occurs in the lowercased course code or in the lowercased course title:
    the separating space keeps a term from matching across the two. *)
Theorem search_term_without_space :
  forall (q : string) (d : dict),
    space_free q = true ->
    text_fields_ok d ->
    search_cond (lower q) d
    = Ok (contains (lower q) (lower (text_of "course_code" d))
          || contains (lower q) (lower (text_of "course_title" d)))%bool.
Proof.
  intros q d Hq Hd. rewrite (search_cond_hit q d Hd). f_equal.
  unfold search_hit. cbv zeta.
  change (" " ++ lower (text_of "course_title" d))
    with (String " " (lower (text_of "course_title" d))).
  apply contains_around_space. now rewrite space_free_lower.
Qed.

Lemma search_term_without_space_witness :
  search_cond (lower "Fundamentals") stored_cs101 = Ok true
  /\ search_cond (lower "1p") stored_cs101 = Ok false.
Proof.
  split.
  - rewrite (search_term_without_space "Fundamentals" stored_cs101).
    + reflexivity.
    + reflexivity.
    + split; right; eexists; reflexivity.
  - rewrite (search_term_without_space "1p" stored_cs101).
    + reflexivity.
    + reflexivity.
    + split; right; eexists; reflexivity.
Defined.

(** ** Stripping the storage keys *)

(** X2.  The dict comprehension of the list handlers takes out the three
    storage keys and nothing else: every other key keeps its value, the
    remaining keys keep their order, and stripping twice is stripping
    once. *)
Theorem strip_storage_only_storage_keys :
  forall (d : dict),
    (forall k, dict_get k (strip_storage d)
               = if mem k storage_keys then None else dict_get k d)
    /\ keys (strip_storage d)
       = filter (fun k => negb (mem k storage_keys)) (keys d)
    /\ strip_storage (strip_storage d) = strip_storage d.
Proof.
  intros d. repeat apply conj.
  - intros k. destruct (mem k storage_keys) eqn:Hk.
    + apply strip_storage_removes. now apply mem_In.
    + now apply strip_storage_keeps.
  - unfold strip_storage, keys.
    induction d as [|[k v] d IH]; [reflexivity|].
    cbn [filter map fst].
    destruct (mem k storage_keys); cbn [negb map fst]; now rewrite IH.
  - unfold strip_storage.
    induction d as [|[k v] d IH]; [reflexivity|].
    cbn [filter fst].
    destruct (mem k storage_keys) eqn:Hk; cbn [negb filter fst].
    + exact IH.
    + rewrite Hk. cbn [negb]. now rewrite IH.
Qed.

(** ** Models and the keys they do not declare *)

Lemma validate_field_agree (kw kw' : dict) (f : field) :
  dict_get (fname f) kw = dict_get (fname f) kw' ->
  validate_field kw f = validate_field kw' f.
Proof. unfold validate_field. now intros ->. Qed.

Lemma rmap_ext_in {A B} (f g : A -> result B) (l : list A) :
  (forall x, In x l -> f x = g x) -> rmap f l = rmap g l.
Proof.
  induction l as [|x xs IH]; intros H; [reflexivity|].
  cbn [rmap]. rewrite (H x (or_introl eq_refl)), IH; [reflexivity|].
  intros y Hy. apply H. now right.
Qed.

Lemma validate_agree (sch : schema) (kw kw' : dict) :
  (forall f, In f sch -> dict_get (fname f) kw = dict_get (fname f) kw') ->
  validate sch kw = validate sch kw'.
Proof.
  intros H. unfold validate. apply rmap_ext_in.
  intros f Hf. apply validate_field_agree. now apply H.
Qed.

Lemma content_schemas_listed (sch : schema) :
  In sch content_schemas ->
  In sch [Program; FacultySchema; EventSchema; AdmissionSchema; PyqSchema].
Proof. intros H. exact H. Qed.

Lemma declared_is_no_storage_key (sch : schema) (f : field) :
  In sch content_schemas -> In f sch -> mem (fname f) storage_keys = false.
Proof.
  intros Hsch Hf.
  destruct (mem (fname f) storage_keys) eqn:Hm; [|reflexivity].
  exfalso. apply mem_In in Hm.
  apply (schemas_without_storage_keys sch
           (content_schemas_listed sch Hsch) (fname f) Hm).
  now apply in_map.
Qed.

(** X3.  Building a model looks at the keyword arguments only under the
    names of the attributes that the model declares.  None of the five
    content models declares a storage key, so a stored document builds the
    same model, or fails alike, with and without its storage keys. *)
Theorem undeclared_keys_ignored :
  forall (sch : schema),
    (forall kw kw',
        (forall f, In f sch -> dict_get (fname f) kw = dict_get (fname f) kw') ->
        validate sch kw = validate sch kw')
    /\ (In sch content_schemas ->
        forall d, validate sch (strip_storage d) = validate sch d).
Proof.
  intros sch. split; [apply validate_agree|].
  intros Hsch d. apply validate_agree. intros f Hf.
  apply strip_storage_keeps. now apply (declared_is_no_storage_key sch).
Qed.

Lemma undeclared_keys_ignored_witness :
  validate PyqSchema (strip_storage stored_cs101)
  = validate PyqSchema stored_cs101.
Proof.
  apply (proj2 (undeclared_keys_ignored PyqSchema)).
  simpl. tauto.
Defined.

(** ** Models are checked values *)

Lemma check_returns_input (f : field) (v w : value) :
  check f v = Ok w -> w = v.
Proof.
  unfold check. destruct (ftyp f), v; try discriminate; intros H.
  - now inversion H.
  - destruct (in_bounds f z); now inversion H.
  - now inversion H.
  - destruct (is_http_url s); now inversion H.
  - destruct (forallb is_str l); now inversion H.
Qed.

Lemma same_name_same_field (sch : schema) (f g : field) :
  NoDup (map fname sch) -> In f sch -> In g sch -> fname f = fname g -> f = g.
Proof.
  induction sch as [|h sch IH]; cbn [map In]; intros Hnd Hf Hg Heq;
    [contradiction|].
  inversion Hnd as [|? ? Hnotin Hnd']; subst.
  destruct Hf as [->|Hf], Hg as [->|Hg].
  - reflexivity.
  - exfalso. apply Hnotin. rewrite Heq. now apply in_map.
  - exfalso. apply Hnotin. rewrite <- Heq. now apply in_map.
  - now apply IH.
Qed.

(** A required attribute of a model holds the value that the keyword
    arguments gave, and that value passed the attribute's check. *)
Lemma required_attribute_checked (sch : schema) (kw r : dict) (f : field) :
  validate sch kw = Ok r ->
  NoDup (map fname sch) ->
  In f sch ->
  fdefault f = None ->
  foptional f = false ->
  exists v, dict_get (fname f) kw = Some v
            /\ check f v = Ok v
            /\ dict_get (fname f) r = Some v.
Proof.
  intros Hr Hnd Hf Hdef Hopt.
  destruct (validate_has_attribute sch kw r f Hr Hf) as [v Hv].
  destruct (validate_attribute sch kw r (fname f) v Hr Hv) as (g & Hg & Hfield).
  pose proof (validate_field_name kw g (fname f) v Hfield) as Hname.
  assert (g = f) as -> by (apply (same_name_same_field sch); auto).
  unfold validate_field in Hfield. rewrite Hdef, Hopt in Hfield.
  destruct (dict_get (fname f) kw) as [w|]; [|discriminate].
  assert (Hcheck : check f w = Ok v).
  { destruct w; try discriminate;
      (destruct (check f _) as [v'|e]; cbn [rbind] in Hfield;
       [now inversion Hfield | discriminate]). }
  pose proof (check_returns_input f w v Hcheck) as ->.
  exists w. auto.
Qed.

Lemma checked_int_in_range (k : string) (lo hi : Z) (v : value) :
  check (req_range k TInt lo hi) v = Ok v ->
  exists z, v = VInt z /\ lo <= z <= hi.
Proof.
  unfold check. cbn [ftyp req_range]. destruct v; try discriminate.
  unfold in_bounds. cbn [fge fle req_range].
  destruct (Z.leb_spec lo z), (Z.leb_spec z hi); cbn [andb];
    try discriminate.
  intros _. exists z. split; [reflexivity | lia].
Qed.

Lemma checked_url (k : string) (v : value) :
  check (req k THttpUrl) v = Ok v ->
  exists u, v = VStr u /\ is_http_url u = true.
Proof.
  unfold check. cbn [ftyp req]. destruct v; try discriminate.
  destruct (is_http_url s) eqn:Hu; [|discriminate].
  intros _. now exists s.
Qed.

Lemma content_schema_names_unique (sch : schema) :
  In sch content_schemas -> NoDup (map fname sch).
Proof.
  intros Hsch. simpl in Hsch.
  repeat (destruct Hsch as [<-|Hsch]; [
    cbn [map fname Program FacultySchema EventSchema AdmissionSchema
         PyqSchema req req_range opt];
    repeat (constructor; [cbn [In]; intuition discriminate|]);
    constructor |]).
  contradiction.
Qed.

(** X4.  Every program that [list_programs] returns has an integer
    [duration_years] from 1 to 6 and an integer [semesters] from 1 to 12,
    whatever the store holds: a document outside these bounds is not turned
    into a record. *)
Theorem listed_programs_within_bounds :
  forall {DB S : Type} {store : DocumentStore DB S}
         (db : option DB) (s s' : S) (out : list dict),
    list_programs db s = (s', Ok out) ->
    Forall (fun r => exists y n,
                dict_get "duration_years" r = Some (VInt y) /\ 1 <= y <= 6
                /\ dict_get "semesters" r = Some (VInt n) /\ 1 <= n <= 12)
           out.
Proof.
  intros DB S store db s s' out H.
  apply handler_models in H. destruct H as (docs & _ & _ & H).
  apply rmap_Forall2 in H.
  assert (Hnd : NoDup (map fname Program))
    by (apply content_schema_names_unique; simpl; tauto).
  induction H as [|d r docs' out' Hr _ IH]; constructor; [|exact IH].
  destruct (required_attribute_checked Program _ r
              (req_range "duration_years" TInt 1 6) Hr Hnd)
    as (v & _ & Hv & Hgot); [simpl; tauto | reflexivity | reflexivity |].
  destruct (required_attribute_checked Program _ r
              (req_range "semesters" TInt 1 12) Hr Hnd)
    as (w & _ & Hw & Hgot'); [simpl; tauto | reflexivity | reflexivity |].
  apply checked_int_in_range in Hv. destruct Hv as (y & -> & Hy).
  apply checked_int_in_range in Hw. destruct Hw as (n & -> & Hn).
  exists y, n. auto.
Qed.

Lemma listed_programs_within_bounds_witness :
  Forall (fun r => exists y n,
              dict_get "duration_years" r = Some (VInt y) /\ 1 <= y <= 6
              /\ dict_get "semesters" r = Some (VInt n) /\ 1 <= n <= 12)
         demo_programs.
Proof.
  apply (listed_programs_within_bounds MemStore.db seeded_store seeded_store).
  reflexivity.
Defined.

(** X5.  Every question paper that [list_pyqs] returns has an integer
    [semester] from 1 to 12 and a [file_url] that is an http or https URL,
    whatever the store holds and whatever the parameters are. *)
Theorem listed_pyqs_checked :
  forall {DB S : Type} {store : DocumentStore DB S}
         (db : option DB) (program department : option string)
         (semester : option Z) (course_code : option string)
         (year : option Z) (exam_type search : option string)
         (s s' : S) (out : list dict),
    list_pyqs db program department semester course_code year exam_type
      search s = (s', Ok out) ->
    Forall (fun r => exists n u,
                dict_get "semester" r = Some (VInt n) /\ 1 <= n <= 12
                /\ dict_get "file_url" r = Some (VStr u)
                /\ is_http_url u = true)
           out.
Proof.
  intros DB S store db program department semester course_code year
         exam_type search s s' out H.
  apply list_pyqs_models in H. destruct H as (docs & H).
  apply rmap_Forall2 in H.
  assert (Hnd : NoDup (map fname PyqSchema))
    by (apply content_schema_names_unique; simpl; tauto).
  induction H as [|d r docs' out' Hr _ IH]; constructor; [|exact IH].
  destruct (required_attribute_checked PyqSchema _ r
              (req_range "semester" TInt 1 12) Hr Hnd)
    as (v & _ & Hv & Hgot); [simpl; tauto | reflexivity | reflexivity |].
  destruct (required_attribute_checked PyqSchema _ r
              (req "file_url" THttpUrl) Hr Hnd)
    as (w & _ & Hw & Hgot'); [simpl; tauto | reflexivity | reflexivity |].
  apply checked_int_in_range in Hv. destruct Hv as (n & -> & Hn).
  apply checked_url in Hw. destruct Hw as (u & -> & Hu).
  exists n, u. auto.
Qed.

Lemma listed_pyqs_checked_witness :
  Forall (fun r => exists n u,
              dict_get "semester" r = Some (VInt n) /\ 1 <= n <= 12
              /\ dict_get "file_url" r = Some (VStr u)
              /\ is_http_url u = true)
         demo_pyqs.
Proof.
  apply (listed_pyqs_checked MemStore.db None None None None None None None
           seeded_store seeded_store).
  reflexivity.
Defined.

(** ** A model builds itself again *)

Lemma rmap_of_Forall2 {A B} (f : A -> result B) (l : list A) (out : list B) :
  Forall2 (fun x y => f x = Ok y) l out -> rmap f l = Ok out.
Proof.
  induction 1 as [|x y l' out' Hx _ IH]; [reflexivity|].
  cbn [rmap]. now rewrite Hx, IH.
Qed.

Lemma dict_get_of_member (k : string) (v : value) (d : dict) :
  NoDup (keys d) -> In (k, v) d -> dict_get k d = Some v.
Proof.
  induction d as [|[k' v'] d IH]; cbn [keys map fst In dict_get];
    intros Hnd Hin; [contradiction|].
  inversion Hnd as [|? ? Hnotin Hnd']; subst.
  destruct Hin as [Heq|Hin].
  - inversion Heq; subst. now rewrite String.eqb_refl.
  - destruct (String.eqb_spec k k') as [->|_]; [|now apply IH].
    exfalso. apply Hnotin. change k' with (fst (k', v)). now apply in_map.
Qed.

(** What a field made of the keyword arguments, it makes again of a dict
    that holds its result under its name. *)
Lemma validate_field_again (kw m : dict) (f : field) (y : string * value) :
  validate_field kw f = Ok y ->
  default_ok f = true ->
  dict_get (fst y) m = Some (snd y) ->
  validate_field m f = Ok y.
Proof.
  intros Hy Hdef Hm.
  pose proof Hy as Hname. destruct y as [k v].
  apply validate_field_name in Hname. cbn [fst snd] in Hm. subst k.
  unfold validate_field in *. rewrite Hm.
  destruct (dict_get (fname f) kw) as [w|].
  - assert (Hcase : (w = VNone /\ foptional f = true /\ v = VNone)
                    \/ (w <> VNone /\ check f w = Ok v)).
    { destruct w;
        try (right; split; [discriminate|];
             destruct (check f _) as [v'|e]; cbn [rbind] in Hy;
             [now inversion Hy | discriminate]).
      left. destruct (foptional f); [now inversion Hy | discriminate]. }
    destruct Hcase as [(-> & Hopt & ->) | (Hw & Hcheck)].
    + now rewrite Hopt.
    + pose proof (check_returns_input f w v Hcheck) as ->.
      destruct w; try (now rewrite Hcheck); congruence.
  - unfold default_ok in Hdef.
    destruct (fdefault f) as [dv|]; [|discriminate].
    inversion Hy; subst.
    destruct v; try (now rewrite Hdef);
      (destruct (check f _) as [w|e] eqn:Hcheck; [|discriminate];
       apply value_eqb_eq in Hdef; subst w; reflexivity).
Qed.

Lemma fields_again (kw whole : dict) (sch : schema) (m : dict) :
  Forall2 (fun f y => validate_field kw f = Ok y) sch m ->
  (forall f, In f sch -> default_ok f = true) ->
  (forall y, In y m -> dict_get (fst y) whole = Some (snd y)) ->
  Forall2 (fun f y => validate_field whole f = Ok y) sch m.
Proof.
  induction 1 as [|f y sch' m' Hy _ IH]; intros Hdef Hin; constructor.
  - apply (validate_field_again kw); auto.
    + apply Hdef. now left.
    + apply Hin. now left.
  - apply IH.
    + intros g Hg. apply Hdef. now right.
    + intros z Hz. apply Hin. now right.
Qed.

Lemma validate_again (sch : schema) (kw m : dict) :
  NoDup (map fname sch) ->
  forallb default_ok sch = true ->
  validate sch kw = Ok m ->
  validate sch m = Ok m.
Proof.
  intros Hnd Hdef Hm.
  assert (Hkeys : NoDup (keys m)) by now rewrite (validate_keys sch kw m Hm).
  unfold validate in *. apply rmap_Forall2 in Hm. apply rmap_of_Forall2.
  rewrite forallb_forall in Hdef.
  apply (fields_again kw m sch m Hm Hdef).
  intros [k v] Hy. now apply dict_get_of_member.
Qed.

(** X6.  For each of the five content models, a model that was built
    builds itself again: what the seeder writes as the dump of a model
    passes the same model unchanged when it is read back. *)
Theorem model_builds_itself_again :
  forall (sch : schema) (kw m : dict),
    In sch content_schemas ->
    validate sch kw = Ok m ->
    validate sch m = Ok m.
Proof.
  intros sch kw m Hsch Hm.
  apply (validate_again sch kw m);
    [now apply content_schema_names_unique | | exact Hm].
  simpl in Hsch.
  repeat (destruct Hsch as [<-|Hsch]; [reflexivity|]).
  contradiction.
Qed.

Lemma model_builds_itself_again_witness :
  validate FacultySchema (nth 0 demo_faculty []) = Ok (nth 0 demo_faculty []).
Proof.
  apply (model_builds_itself_again FacultySchema
           [("name", VStr "Dr. A. Sharma"); ("designation", VStr "Professor");
            ("department", VStr "CSE"); ("email", VStr "asharma@nijt.ac.in");
            ("research_areas", VList [VStr "AI"; VStr "Computer Vision"])]).
  - simpl. tauto.
  - reflexivity.
Defined.

(** ** Building the list: all documents or none *)

Lemma check_raises_validation_error (f : field) (v : value) (e : exn) :
  check f v = Raise e -> e = ValidationError.
Proof.
  unfold check. destruct (ftyp f), v; intros H;
    try (now inversion H).
  - destruct (in_bounds f z); now inversion H.
  - destruct (is_http_url s); now inversion H.
  - destruct (forallb is_str l); now inversion H.
Qed.

Lemma validate_field_raises_validation_error (kw : dict) (f : field) (e : exn) :
  validate_field kw f = Raise e -> e = ValidationError.
Proof.
  unfold validate_field. intros H.
  destruct (dict_get (fname f) kw) as [w|].
  - destruct w;
      try (destruct (check f _) as [v|e'] eqn:Hc; cbn [rbind] in H;
           [discriminate | inversion H; subst;
                           eapply check_raises_validation_error; exact Hc ]).
    destruct (foptional f); [discriminate | now inversion H].
  - destruct (fdefault f); [discriminate | now inversion H].
Qed.

Lemma rmap_raises {A B} (f : A -> result B) (l : list A) (e : exn) :
  rmap f l = Raise e -> exists x, In x l /\ f x = Raise e.
Proof.
  induction l as [|x xs IH]; cbn [rmap]; intros H; [discriminate|].
  destruct (f x) as [y|e'] eqn:Hx; cbn [rbind] in H.
  - destruct (rmap f xs) as [ys|e''] eqn:Hxs; cbn [rbind] in H;
      [discriminate|].
    inversion H; subst. destruct (IH eq_refl) as (z & Hz & Hfz).
    exists z. split; [now right | exact Hfz].
  - inversion H; subst. exists x. split; [now left | exact Hx].
Qed.

Lemma validate_raises_validation_error (sch : schema) (kw : dict) (e : exn) :
  validate sch kw = Raise e -> e = ValidationError.
Proof.
  unfold validate. intros H. apply rmap_raises in H.
  destruct H as (f & _ & Hf).
  now apply (validate_field_raises_validation_error kw f).
Qed.

Lemma to_models_raises_validation_error (sch : schema) (docs : list dict)
    (e : exn) :
  to_models sch docs = Raise e -> e = ValidationError.
Proof.
  unfold to_models. intros H. apply rmap_raises in H.
  destruct H as (d & _ & Hd).
  now apply (validate_raises_validation_error sch (strip_storage d)).
Qed.

Lemma to_models_all_valid (sch : schema) (docs : list dict) :
  Forall (fun d => exists r, validate sch (strip_storage d) = Ok r) docs ->
  exists out,
    to_models sch docs = Ok out
    /\ Forall2 (fun d r => validate sch (strip_storage d) = Ok r) docs out.
Proof.
  induction 1 as [|d docs' [r Hr] _ (out & Hout & Hall)].
  - exists []. split; [reflexivity | constructor].
  - exists (r :: out). split.
    + unfold to_models in *. cbn [rmap]. now rewrite Hr, Hout.
    + now constructor.
Qed.

Lemma to_models_one_invalid (sch : schema) (docs : list dict) :
  Exists (fun d => forall r, validate sch (strip_storage d) <> Ok r) docs ->
  to_models sch docs = Raise ValidationError.
Proof.
  intros Hbad.
  destruct (to_models sch docs) as [out|e] eqn:H.
  - exfalso. apply rmap_Forall2 in H. apply Exists_exists in Hbad.
    destruct Hbad as (d & Hd & Hnot).
    revert Hd. induction H as [|x y l l' Hxy _ IH]; intros Hd;
      [contradiction|].
    destruct Hd as [->|Hd]; [now apply (Hnot y) | now apply IH].
  - now rewrite (to_models_raises_validation_error sch docs e H).
Qed.

Section AnyStoreMore.
Context {DB S : Type} {store : DocumentStore DB S}.

(** With a handle that is true, the filter of a one-parameter handler is
    the entry of its parameter, and the documents are what the store
    returns. *)
Lemma filter_if_true (key : string) (p : option string) (h : DB) (s : S) :
  db_bool h = Ok true ->
  filter_if key p (Some h) s = (s, Ok (str_entry key p)).
Proof.
  intros Hb. unfold filter_if, str_entry, truthy, bind, lift, ret.
  destruct p as [x|]; [|reflexivity].
  destruct (str_truthy x); [|reflexivity]. now rewrite Hb.
Qed.

Lemma docs_if_true (h : DB) (c : string) (f : dict) (s : S) :
  db_bool h = Ok true ->
  docs_if (Some h) c f s = get_documents h c f s.
Proof.
  intros Hb. unfold docs_if, truthy, bind, lift. rewrite Hb.
  now destruct (get_documents h c f s) as [s' [docs|e]].
Qed.

(** A one-parameter handler on a handle that is true. *)
Lemma filtered_handler_true (key c : string) (sch : schema)
    (p : option string) (h : DB) (s : S) :
  db_bool h = Ok true ->
  (filter_q <- filter_if key p (Some h) ;;
   docs <- docs_if (Some h) c filter_q ;;
   lift (to_models sch docs)) s
  = (docs <- get_documents h c (str_entry key p) ;;
     lift (to_models sch docs)) s.
Proof.
  intros Hb. unfold bind at 1. rewrite (filter_if_true key p h s Hb).
  unfold bind. now rewrite (docs_if_true h c _ s Hb).
Qed.

(** X7.  A list request is answered with all retrieved documents or with
    none.  When every retrieved document builds a model, the list has one
    record per document, in the order of the store; when one of them does
    not, the comprehension raises [ValidationError] and the programs route
    answers with a server error, even if the other documents are fine. *)
Theorem list_is_all_or_nothing :
  (forall (sch : schema) (docs : list dict),
      Forall (fun d => exists r, validate sch (strip_storage d) = Ok r) docs ->
      exists out,
        to_models sch docs = Ok out
        /\ Forall2 (fun d r => validate sch (strip_storage d) = Ok r) docs out
        /\ List.length out = List.length docs)
  /\ (forall (sch : schema) (docs : list dict),
        Exists (fun d => forall r, validate sch (strip_storage d) <> Ok r)
               docs ->
        to_models sch docs = Raise ValidationError)
  /\ (forall (h : DB) (s s' : S) (docs : list dict),
        db_bool h = Ok true ->
        get_documents h "program" [] s = (s', Ok docs) ->
        Exists (fun d => forall r, validate Program (strip_storage d) <> Ok r)
               docs ->
        get_api_programs (Some h) s = (s', Http500 ValidationError)).
Proof.
  repeat apply conj.
  - intros sch docs Hall.
    destruct (to_models_all_valid sch docs Hall) as (out & Hout & H2).
    exists out. repeat split; auto.
    symmetry. eapply Forall2_length. exact H2.
  - apply to_models_one_invalid.
  - intros h s s' docs Hb Hget Hbad.
    unfold get_api_programs, respond, list_programs, bind.
    rewrite (docs_if_true h "program" [] s Hb), Hget.
    unfold lift. now rewrite (to_models_one_invalid Program docs Hbad).
Qed.

End AnyStoreMore.

Lemma list_is_all_or_nothing_witness :
  get_api_programs MemStore.db with_bad_program
  = (with_bad_program, Http500 ValidationError)
  /\ exists out,
       to_models Program (MemStore.colls seeded_store "program") = Ok out
       /\ List.length out = 2%nat.
Proof.
  pose proof (list_is_all_or_nothing (DB := unit) (S := MemStore.state))
    as (Hall & _ & Hroute).
  split.
  - apply (Hroute tt with_bad_program with_bad_program
             (MemStore.colls with_bad_program "program")).
    + reflexivity.
    + reflexivity.
    + apply Exists_cons_tl, Exists_cons_tl, Exists_cons_hd.
      intros r. discriminate.
  - destruct (Hall Program (MemStore.colls seeded_store "program"))
      as (out & Hout & _ & Hlen).
    + repeat constructor; eexists; reflexivity.
    + exists out. split; [exact Hout | exact Hlen].
Defined.

(** ** Failures of the store and of the handle *)

Section AnyStoreFailures.
Context {DB S : Type} {store : DocumentStore DB S}.

(** X8.  A query that the store fails is not turned into an empty list:
    on each of the five routes the exception of [get_documents] becomes a
    server error that carries it. *)
Theorem store_failure_is_server_error :
  forall (h : DB) (s s' : S) (e : exn),
    (db_bool h = Ok true ->
     get_documents h "program" [] s = (s', Raise e) ->
     get_api_programs (Some h) s = (s', Http500 e))
    /\ (forall department,
          db_bool h = Ok true ->
          get_documents h "faculty" (str_entry "department" department) s
          = (s', Raise e) ->
          get_api_faculty (Some h) department s = (s', Http500 e))
    /\ (forall category,
          db_bool h = Ok true ->
          get_documents h "event" (str_entry "category" category) s
          = (s', Raise e) ->
          get_api_events (Some h) category s = (s', Http500 e))
    /\ (forall status,
          db_bool h = Ok true ->
          get_documents h "admission" (str_entry "status" status) s
          = (s', Raise e) ->
          get_api_admissions (Some h) status s = (s', Http500 e))
    /\ (forall program department semester course_code year exam_type search,
          query_ge_le 1 12 semester = true ->
          get_documents h "pyq"
            (pyq_filter program department semester course_code year exam_type)
            s = (s', Raise e) ->
          get_api_pyqs (Some h) program department semester course_code year
            exam_type search s = (s', Http500 e)).
Proof.
  intros h s s' e. repeat apply conj.
  - intros Hb Hget. unfold get_api_programs, respond, list_programs, bind.
    now rewrite (docs_if_true h "program" [] s Hb), Hget.
  - intros department Hb Hget. unfold get_api_faculty, respond, list_faculty.
    rewrite (filtered_handler_true "department" "faculty" FacultySchema
               department h s Hb).
    unfold bind. now rewrite Hget.
  - intros category Hb Hget. unfold get_api_events, respond, list_events.
    rewrite (filtered_handler_true "category" "event" EventSchema
               category h s Hb).
    unfold bind. now rewrite Hget.
  - intros status Hb Hget. unfold get_api_admissions, respond, list_admissions.
    rewrite (filtered_handler_true "status" "admission" AdmissionSchema
               status h s Hb).
    unfold bind. now rewrite Hget.
  - intros program department semester course_code year exam_type search
           Hq Hget.
    unfold get_api_pyqs, respond, list_pyqs, bind. now rewrite Hq, Hget.
Qed.

(** X9.  Four handlers test the handle by its truth value and one by
    [is None].  When [bool(db)] raises, [list_programs], [list_faculty],
    [list_events] and [list_admissions] raise that exception for every
    parameter value, without a query; when [bool(db)] is false they return
    the empty list without a query.  [list_pyqs] never asks for the truth
    value: it returns the models of what the store returns. *)
Theorem handle_truth_value :
  forall (h : DB) (s : S),
    (forall e,
        db_bool h = Raise e ->
        list_programs (Some h) s = (s, Raise e)
        /\ (forall p, list_faculty (Some h) p s = (s, Raise e))
        /\ (forall p, list_events (Some h) p s = (s, Raise e))
        /\ (forall p, list_admissions (Some h) p s = (s, Raise e)))
    /\ (db_bool h = Ok false ->
        list_programs (Some h) s = (s, Ok [])
        /\ (forall p, list_faculty (Some h) p s = (s, Ok []))
        /\ (forall p, list_events (Some h) p s = (s, Ok []))
        /\ (forall p, list_admissions (Some h) p s = (s, Ok [])))
    /\ (forall program department semester course_code year exam_type s' docs,
          get_documents h "pyq"
            (pyq_filter program department semester course_code year exam_type)
            s = (s', Ok docs) ->
          list_pyqs (Some h) program department semester course_code year
            exam_type None s = (s', to_models PyqSchema docs)).
Proof.
  intros h s.
  assert (Hone : forall key c sch p r,
             db_bool h = r ->
             (r = Ok true -> False) ->
             (filter_q <- filter_if key p (Some h) ;;
              docs <- docs_if (Some h) c filter_q ;;
              lift (to_models sch docs)) s
             = (s, match r with
                   | Ok _ => Ok []
                   | Raise e => Raise e
                   end)).
  { intros key c sch p r Hr Hnot.
    unfold filter_if, docs_if, truthy, bind, lift, ret. rewrite Hr.
    destruct r as [[|]|e]; [now exfalso | |].
    - destruct p as [x|]; [destruct (str_truthy x)|]; reflexivity.
    - destruct p as [x|]; [destruct (str_truthy x)|]; reflexivity. }
  repeat apply conj.
  - intros e He. repeat apply conj.
    + unfold list_programs, docs_if, truthy, bind, lift. now rewrite He.
    + intros p. apply (Hone "department" "faculty" FacultySchema p _ He).
      discriminate.
    + intros p. apply (Hone "category" "event" EventSchema p _ He).
      discriminate.
    + intros p. apply (Hone "status" "admission" AdmissionSchema p _ He).
      discriminate.
  - intros Hf. repeat apply conj.
    + unfold list_programs, docs_if, truthy, bind, lift, ret. now rewrite Hf.
    + intros p. apply (Hone "department" "faculty" FacultySchema p _ Hf).
      discriminate.
    + intros p. apply (Hone "category" "event" EventSchema p _ Hf).
      discriminate.
    + intros p. apply (Hone "status" "admission" AdmissionSchema p _ Hf).
      discriminate.
  - intros program department semester course_code year exam_type s' docs
           Hget.
    unfold list_pyqs, bind. rewrite Hget. reflexivity.
Qed.

End AnyStoreFailures.

Lemma store_failure_witness :
  get_api_programs (store := BrokenStore.broken_store) (Some tt) tt
  = (tt, Http500 BrokenStore.unreachable)
  /\ get_api_pyqs (store := BrokenStore.broken_store) (Some tt)
       None None None None None None (Some "cs101") tt
     = (tt, Http500 BrokenStore.unreachable).
Proof.
  pose proof (store_failure_is_server_error
                (store := BrokenStore.broken_store) tt tt tt
                BrokenStore.unreachable) as (Hp & _ & _ & _ & Hq).
  split.
  - apply Hp; reflexivity.
  - apply Hq; reflexivity.
Defined.

(** On the seeded in-memory store behind a handle without truth value the
    programs are not listed and the question papers are; behind a handle
    that is false the programs that exist are not listed. *)
Lemma handle_truth_value_witness :
  list_programs (store := strict_store) (Some tt) seeded_store
  = (seeded_store, Raise no_truth_value)
  /\ list_pyqs (store := strict_store) (Some tt)
       None None None None None None None seeded_store
     = (seeded_store, Ok demo_pyqs)
  /\ list_programs (store := falsy_store) (Some tt) seeded_store
     = (seeded_store, Ok []).
Proof.
  repeat apply conj.
  - apply (proj1 (handle_truth_value (store := strict_store) tt seeded_store)).
    reflexivity.
  - apply (proj2 (proj2 (handle_truth_value (store := strict_store)
                           tt seeded_store))
             None None None None None None seeded_store [stored_cs101]).
    reflexivity.
  - apply (proj1 (proj2 (handle_truth_value (store := falsy_store)
                           tt seeded_store))).
    reflexivity.
Defined.

(** ** The diagnostic route *)

Lemma take_length (n : nat) (s : string) : (String.length (take n s) <= n)%nat.
Proof.
  revert s. induction n as [|n IH]; intros s; [apply Nat.le_refl|].
  destruct s as [|c r]; cbn [take String.length]; [lia|].
  specialize (IH r). lia.
Qed.

Lemma take_prefix (n : nat) (s : string) : exists r, s = take n s ++ r.
Proof.
  revert s. induction n as [|n IH]; intros s; [now exists s|].
  destruct s as [|c r]; [now exists EmptyString|].
  destruct (IH r) as [t Ht]. exists t. cbn [take append]. now rewrite <- Ht.
Qed.

Section DiagnosticsFacts.
Context {DB S : Type} {info : HandleInfo DB S}.
Variable str_exn : exn -> string.
Variable getenv : string -> option string.

(** X10.  The diagnostic response always has the same six keys in the same
    order and reports the backend as running, and its [database_url] and
    [database_name] entries are decided by the environment variables
    alone: what was entered for a configured handle (its name, the mark
    for a configured URL) is overwritten before the response is returned. *)
Theorem test_database_shape :
  forall (db : option DB) (s : S),
    let response := snd (test_database str_exn getenv db s) in
    keys response
    = ["backend"; "database"; "database_url"; "database_name";
       "connection_status"; "collections"]
    /\ dict_get "backend" response = Some (VStr "✅ Running")
    /\ dict_get "database_url" response
       = Some (VStr (if opt_truthy (getenv "DATABASE_URL")
                     then "✅ Set" else "❌ Not Set"))
    /\ dict_get "database_name" response
       = Some (VStr (if opt_truthy (getenv "DATABASE_NAME")
                     then "✅ Set" else "❌ Not Set")).
Proof.
  intros db s. unfold test_database, probe.
  destruct db as [h|]; [|repeat apply conj; reflexivity].
  destruct (db_name h) as [[v|]|e];
    try destruct (list_collection_names h s) as [s' [all|e]];
    repeat apply conj; reflexivity.
Qed.

(** X11.  The response never lists more than ten collections: when the
    handle is there, its name can be read and the listing succeeds, the
    entry holds the first ten names that the store listed, in their order;
    in every other case it is the empty list. *)
Theorem test_database_collections :
  forall (db : option DB) (s : S),
    let response := snd (test_database str_exn getenv db s) in
    (exists names,
        dict_get "collections" response = Some (VList (map VStr names))
        /\ (List.length names <= 10)%nat)
    /\ (forall h name s' all,
          db = Some h ->
          db_name h = Ok name ->
          list_collection_names h s = (s', Ok all) ->
          dict_get "collections" response
          = Some (VList (map VStr (firstn 10 all))))
    /\ (db = None ->
        dict_get "collections" response = Some (VList []))
    /\ (forall h s' e,
          db = Some h ->
          list_collection_names h s = (s', Raise e) ->
          dict_get "collections" response = Some (VList [])).
Proof.
  intros db s. unfold test_database, probe. repeat apply conj.
  - destruct db as [h|]; [|exists []; split; [reflexivity | cbn; lia]].
    destruct (db_name h) as [[v|]|e];
      try destruct (list_collection_names h s) as [s' [all|e]];
      try (exists []; split; [reflexivity | cbn; lia]);
      (exists (firstn 10 all); split;
       [reflexivity | apply firstn_le_length]).
  - intros h name s' all -> Hname Hlist. rewrite Hname, Hlist.
    destruct name; reflexivity.
  - intros ->. reflexivity.
  - intros h s' e -> Hlist. rewrite Hlist.
    destruct (db_name h) as [[v|]|e']; reflexivity.
Qed.

(** X12.  The [database] entry of the response.  It is never the initial
    text for a store that is not available: with no handle it reads that
    the store is available but not initialized, and the connection status
    stays [Not Connected].  When listing the collections fails, it is the
    warning text followed by the first 50 characters of the exception's
    message, and the connection status is [Connected]. *)
Theorem test_database_status :
  forall (db : option DB) (s : S),
    let response := snd (test_database str_exn getenv db s) in
    dict_get "database" response <> Some (VStr "❌ Not Available")
    /\ (db = None ->
        dict_get "database" response = Some (VStr "⚠️  Available but not initialized")
        /\ dict_get "connection_status" response
           = Some (VStr "Not Connected"))
    /\ (forall h name s' e,
          db = Some h ->
          db_name h = Ok name ->
          list_collection_names h s = (s', Raise e) ->
          exists shown,
            dict_get "database" response
            = Some (VStr ("⚠️  Connected but Error: " ++ shown))
            /\ (String.length shown <= 50)%nat
            /\ (exists rest, str_exn e = shown ++ rest)
            /\ dict_get "connection_status" response
               = Some (VStr "Connected")).
Proof.
  intros db s. unfold test_database, probe. repeat apply conj.
  - destruct db as [h|]; [|discriminate].
    destruct (db_name h) as [[v|]|e];
      try destruct (list_collection_names h s) as [s' [all|e]];
      discriminate.
  - intros ->. split; reflexivity.
  - intros h name s' e -> Hname Hlist. rewrite Hname, Hlist.
    exists (take 50 (str_exn e)). repeat apply conj.
    + destruct name; reflexivity.
    + apply take_length.
    + apply take_prefix.
    + destruct name; reflexivity.
Qed.

End DiagnosticsFacts.

Lemma test_database_collections_witness :
  dict_get "collections"
    (snd (test_database (info := twelve_info) message_of url_only
            (Some tt) tt))
  = Some (VList (map VStr (firstn 10 twelve_names)))
  /\ dict_get "collections"
       (snd (test_database (info := failing_info) message_of url_only
               (Some tt) tt))
     = Some (VList []).
Proof.
  split.
  - apply (proj1 (proj2 (test_database_collections (info := twelve_info)
                           message_of url_only (Some tt) tt))
             tt (Some (VStr "nijt")) tt twelve_names);
      reflexivity.
  - apply (proj2 (proj2 (proj2 (test_database_collections
                                  (info := failing_info)
                                  message_of url_only (Some tt) tt)))
             tt tt (StoreError long_message));
      reflexivity.
Defined.

Lemma test_database_status_witness :
  dict_get "database"
    (snd (test_database (info := twelve_info) message_of url_only None tt))
  = Some (VStr "⚠️  Available but not initialized")
  /\ exists shown,
       dict_get "database"
         (snd (test_database (info := failing_info) message_of url_only
                 (Some tt) tt))
       = Some (VStr ("⚠️  Connected but Error: " ++ shown))
       /\ (String.length shown <= 50)%nat.
Proof.
  split.
  - apply (proj1 (proj2 (test_database_status (info := twelve_info)
                           message_of url_only None tt))).
    reflexivity.
  - destruct (proj2 (proj2 (test_database_status (info := failing_info)
                              message_of url_only (Some tt) tt))
                tt None tt (StoreError long_message)
                eq_refl eq_refl eq_refl)
      as (shown & Hshown & Hlen & _).
    exists shown. split; [exact Hshown | exact Hlen].
Defined.

(** ** Writing and reading back on the in-memory store *)

Lemma dict_get_set_other (k k' : string) (v : value) (d : dict) :
  k <> k' -> dict_get k (dict_set k' v d) = dict_get k d.
Proof.
  intros Hne. induction d as [|[k0 v0] d IH]; cbn [dict_set dict_get].
  - apply String.eqb_neq in Hne. now rewrite Hne.
  - destruct (String.eqb_spec k' k0) as [->|Hk0]; cbn [dict_get].
    + apply String.eqb_neq in Hne. now rewrite Hne.
    + now rewrite IH.
Qed.

Lemma rmap_app {A B} (f : A -> result B) (l1 l2 : list A) (o1 o2 : list B) :
  rmap f l1 = Ok o1 -> rmap f l2 = Ok o2 ->
  rmap f (l1 ++ l2)%list = Ok (o1 ++ o2)%list.
Proof.
  intros H1 H2. apply rmap_Forall2 in H1. apply rmap_Forall2 in H2.
  apply rmap_of_Forall2. now apply Forall2_app.
Qed.

(** The stored form of a model builds the model. *)
Lemma stored_model_read_back (sch : schema) (m : dict) (id now : value) :
  In sch content_schemas ->
  validate sch m = Ok m ->
  validate sch
    (strip_storage
       (dict_set "_id" id
          (dict_set "updated_at" now (dict_set "created_at" now m))))
  = Ok m.
Proof.
  intros Hsch Hm. transitivity (validate sch m); [|exact Hm].
  apply validate_agree. intros f Hf.
  pose proof (declared_is_no_storage_key sch f Hsch Hf) as Hmem.
  rewrite (strip_storage_keeps _ _ Hmem).
  unfold mem, storage_keys in Hmem. cbn [existsb] in Hmem.
  apply orb_false_iff in Hmem. destruct Hmem as [H1 Hmem].
  apply orb_false_iff in Hmem. destruct Hmem as [H2 Hmem].
  apply orb_false_iff in Hmem. destruct Hmem as [H3 _].
  apply String.eqb_neq in H1, H2, H3.
  now rewrite !dict_get_set_other.
Qed.

Lemma inserted_model_listed (sch : schema) (c : string) (m : dict)
    (s : MemStore.state) (out : list dict) :
  In sch content_schemas ->
  validate sch m = Ok m ->
  to_models sch (MemStore.colls s c) = Ok out ->
  to_models sch (MemStore.colls (fst (MemStore.insert_one c m s)) c)
  = Ok (out ++ [m])%list.
Proof.
  intros Hsch Hm Hout.
  cbn [MemStore.insert_one fst MemStore.colls]. rewrite String.eqb_refl.
  unfold to_models in *. apply rmap_app; [exact Hout|].
  cbn [rmap]. now rewrite (stored_model_read_back sch m _ _ Hsch Hm).
Qed.

(** X13.  On the in-memory store, what is written is what is read: when a
    model of one of the five content schemas is created in a collection,
    the records that the collection lists afterwards are the records that
    it listed before, followed by that model, without the storage keys that
    the store added; the other collections are as they were. *)
Theorem created_model_is_listed :
  forall (sch : schema) (c : string) (kw m : dict) (s : MemStore.state)
         (out : list dict),
    In sch content_schemas ->
    validate sch kw = Ok m ->
    to_models sch (MemStore.find_many s c []) = Ok out ->
    exists s1,
      create tt c sch kw s = (s1, Ok tt)
      /\ to_models sch (MemStore.find_many s1 c []) = Ok (out ++ [m])%list
      /\ (forall c', c' <> c ->
                     MemStore.find_many s1 c' [] = MemStore.find_many s c' []).
Proof.
  intros sch c kw m s out Hsch Hm Hout.
  exists (fst (MemStore.insert_one c m s)). repeat apply conj.
  - now apply create_mem.
  - rewrite find_many_all in *. apply inserted_model_listed; auto.
    apply (validate_again sch kw m);
      [now apply content_schema_names_unique | | exact Hm].
    simpl in Hsch.
    repeat (destruct Hsch as [<-|Hsch]; [reflexivity|]). contradiction.
  - intros c' Hc'. rewrite !find_many_all. now apply insert_one_other.
Qed.

Lemma created_model_is_listed_witness :
  exists s1,
    create tt "admission" AdmissionSchema
      [("year", VInt 2026); ("program", VStr "M.Tech");
       ("status", VStr "Upcoming")]
      seeded_store = (s1, Ok tt)
    /\ to_models AdmissionSchema (MemStore.find_many s1 "admission" [])
       = Ok (demo_admissions
             ++ [[("year", VInt 2026); ("program", VStr "M.Tech");
                  ("status", VStr "Upcoming");
                  ("application_deadline", VNone); ("brochure_url", VNone);
                  ("apply_url", VNone); ("notes", VNone)]])%list.
Proof.
  destruct (created_model_is_listed AdmissionSchema "admission"
              [("year", VInt 2026); ("program", VStr "M.Tech");
               ("status", VStr "Upcoming")]
              [("year", VInt 2026); ("program", VStr "M.Tech");
               ("status", VStr "Upcoming");
               ("application_deadline", VNone); ("brochure_url", VNone);
               ("apply_url", VNone); ("notes", VNone)]
              seeded_store demo_admissions)
    as (s1 & Hrun & Hlist & _).
  - simpl. tauto.
  - reflexivity.
  - reflexivity.
  - exists s1. split; [exact Hrun | exact Hlist].
Defined.

(** ** The demo records behind every list route *)

Lemma inserted_models_listed (sch : schema) (c : string) (models : list dict)
    (s : MemStore.state) (out : list dict) :
  In sch content_schemas ->
  Forall (fun m => validate sch m = Ok m) models ->
  to_models sch (MemStore.colls s c) = Ok out ->
  to_models sch (MemStore.colls (insert_all c models s) c)
  = Ok (out ++ models)%list.
Proof.
  intros Hsch Hmodels. revert s out. unfold insert_all.
  induction Hmodels as [|m ms Hm _ IH]; intros s out Hout; cbn [fold_left].
  - now rewrite app_nil_r.
  - rewrite (IH _ (out ++ [m])%list).
    + now rewrite <- app_assoc.
    + now apply inserted_model_listed.
Qed.

Lemma filled_collection_listed (sch : schema) (c : string)
    (models : list dict) (s : MemStore.state) :
  In sch content_schemas ->
  Forall (fun m => validate sch m = Ok m) models ->
  MemStore.colls s c = [] ->
  to_models sch (MemStore.colls (fill c models s) c) = Ok models.
Proof.
  intros Hsch Hmodels Hc. unfold fill. rewrite Hc.
  apply (inserted_models_listed sch c models s []); auto.
  now rewrite Hc.
Qed.

Lemma empty_collection (s : MemStore.state) (c : string) :
  count s c = 0 -> MemStore.colls s c = [].
Proof.
  intros H. destruct (MemStore.colls s c) eqn:E; [reflexivity|].
  exfalso. apply (proj2 (count_nonzero s c)); [|exact H].
  rewrite E. discriminate.
Qed.

(** X14.  On the in-memory store, when the five collections are empty,
    each list handler called without parameters after seeding returns
    exactly the demo records that the seeder wrote for its collection, in
    the order in which it wrote them; the two events start on the day of
    seeding and 30 days later. *)
Theorem seeded_lists_demo_records :
  forall (s : MemStore.state) (today : Z),
    (forall c, In c seeded_collections -> count s c = 0) ->
    let s1 := MemStore.seeded today s in
    list_faculty MemStore.db None s1 = (s1, Ok demo_faculty)
    /\ list_events MemStore.db None s1 = (s1, Ok (demo_events today))
    /\ list_admissions MemStore.db None s1 = (s1, Ok demo_admissions)
    /\ list_pyqs MemStore.db None None None None None None None s1
       = (s1, Ok demo_pyqs).
Proof.
  intros s today Hempty s1.
  assert (Hf : to_models FacultySchema (MemStore.colls s1 "faculty")
               = Ok demo_faculty).
  { subst s1. rewrite seeded_fill.
    repeat (rewrite fill_other by distinct_names).
    apply filled_collection_listed; [simpl; tauto | repeat constructor |].
    rewrite fill_other by distinct_names.
    apply empty_collection, Hempty. simpl; tauto. }
  assert (He : to_models EventSchema (MemStore.colls s1 "event")
               = Ok (demo_events today)).
  { subst s1. rewrite seeded_fill.
    repeat (rewrite fill_other by distinct_names).
    apply filled_collection_listed; [simpl; tauto | repeat constructor |].
    repeat (rewrite fill_other by distinct_names).
    apply empty_collection, Hempty. simpl; tauto. }
  assert (Ha : to_models AdmissionSchema (MemStore.colls s1 "admission")
               = Ok demo_admissions).
  { subst s1. rewrite seeded_fill.
    repeat (rewrite fill_other by distinct_names).
    apply filled_collection_listed; [simpl; tauto | repeat constructor |].
    repeat (rewrite fill_other by distinct_names).
    apply empty_collection, Hempty. simpl; tauto. }
  assert (Hq : to_models PyqSchema (MemStore.colls s1 "pyq") = Ok demo_pyqs).
  { subst s1. rewrite seeded_fill.
    apply filled_collection_listed; [simpl; tauto | repeat constructor |].
    repeat (rewrite fill_other by distinct_names).
    apply empty_collection, Hempty. simpl; tauto. }
  repeat apply conj.
  - unfold list_faculty, filter_if, docs_if, truthy, MemStore.db, bind, lift,
      ret.
    cbn [db_bool get_documents MemStore.mem_store].
    now rewrite find_many_all, Hf.
  - unfold list_events, filter_if, docs_if, truthy, MemStore.db, bind, lift,
      ret.
    cbn [db_bool get_documents MemStore.mem_store].
    now rewrite find_many_all, He.
  - unfold list_admissions, filter_if, docs_if, truthy, MemStore.db, bind,
      lift, ret.
    cbn [db_bool get_documents MemStore.mem_store].
    now rewrite find_many_all, Ha.
  - unfold list_pyqs, MemStore.db, bind, lift.
    cbn [get_documents MemStore.mem_store pyq_filter set_if_truthy
         set_if_not_none search_docs].
    now rewrite find_many_all, Hq.
Qed.

Lemma seeded_lists_demo_records_witness :
  list_events MemStore.db None (MemStore.seeded 100 MemStore.init)
  = (MemStore.seeded 100 MemStore.init, Ok (demo_events 100)).
Proof.
  apply (proj1 (proj2 (seeded_lists_demo_records MemStore.init 100
                         (fun c _ => eq_refl)))).
Defined.

(** ** Filters reach the records *)

(** A required attribute of a model is the value that the keyword
    arguments held under its name. *)
Lemma required_attribute_kept (sch : schema) (kw r : dict) (f : field) :
  validate sch kw = Ok r ->
  NoDup (map fname sch) ->
  In f sch ->
  fdefault f = None ->
  foptional f = false ->
  dict_get (fname f) r = dict_get (fname f) kw.
Proof.
  intros Hr Hnd Hf Hdef Hopt.
  destruct (required_attribute_checked sch kw r f Hr Hnd Hf Hdef Hopt)
    as (v & Hkw & _ & Hgot).
  now rewrite Hkw, Hgot.
Qed.

Lemma search_docs_keeps_members (search : option string)
    (docs kept : list dict) :
  search_docs search docs = Ok kept -> forall d, In d kept -> In d docs.
Proof.
  intros H d Hd. destruct search as [q|].
  - rewrite (search_docs_ok q docs kept H) in Hd.
    apply filter_In in Hd. tauto.
  - inversion H; subst. exact Hd.
Qed.

(** Every key of the filter of [list_pyqs] names a required attribute of
    the model. *)
Lemma pyq_filter_keys_required
    program department semester course_code year exam_type k v :
  dict_get k (pyq_filter program department semester course_code year
                exam_type) = Some v ->
  exists f, In f PyqSchema /\ fname f = k
            /\ fdefault f = None /\ foptional f = false.
Proof.
  intros H. apply dict_get_In in H. rewrite pyq_filter_entries in H.
  assert (Hstr : forall key p, In (k, v) (str_entry key p) -> k = key).
  { intros key [x|]; cbn [str_entry]; [destruct (str_truthy x)|];
      intros Hin;
      repeat (destruct Hin as [Heq|Hin]; [now inversion Heq|]);
      contradiction. }
  assert (Hint : forall key p, In (k, v) (int_entry key p) -> k = key).
  { intros key [z|]; cbn [int_entry]; intros Hin;
      repeat (destruct Hin as [Heq|Hin]; [now inversion Heq|]);
      contradiction. }
  repeat (apply in_app_or in H; destruct H as [H|H]).
  - apply Hstr in H. subst k. exists (req "program" TStr). simpl. tauto.
  - apply Hstr in H. subst k. exists (req "department" TStr). simpl. tauto.
  - apply Hint in H. subst k. exists (req_range "semester" TInt 1 12).
    simpl. tauto.
  - apply Hstr in H. subst k. exists (req "course_code" TStr). simpl. tauto.
  - apply Hint in H. subst k. exists (req "year" TInt). simpl. tauto.
  - apply Hstr in H. subst k. exists (req "exam_type" TStr). simpl. tauto.
Qed.

Section FiltersReachRecords.
Context {DB S : Type} {store : DocumentStore DB S}.

(** X15.  On a store that honours exact-match filters, every question
    paper that [list_pyqs] returns carries, under each key of the filter
    that was built from the parameters, exactly the value of the filter:
    the given program, department, semester, course code, year and exam
    type. *)
Theorem list_pyqs_records_match_filter :
  honours_filters store ->
  forall (db : option DB) (program department : option string)
         (semester : option Z) (course_code : option string)
         (year : option Z) (exam_type search : option string)
         (s s' : S) (out : list dict),
    list_pyqs db program department semester course_code year exam_type
      search s = (s', Ok out) ->
    Forall (fun r =>
              forall k v,
                dict_get k (pyq_filter program department semester
                              course_code year exam_type) = Some v ->
                dict_get k r = Some v)
           out.
Proof.
  intros Hstore db program department semester course_code year exam_type
         search s s' out H.
  destruct db as [h|]; [|inversion H; constructor].
  unfold list_pyqs in H.
  apply bind_ok in H. destruct H as (docs & s1 & Hget & H).
  apply bind_ok in H. destruct H as (kept & s2 & Hkept & H).
  apply lift_ok in Hkept. destruct Hkept as [_ Hkept].
  apply lift_ok in H. destruct H as [_ H].
  apply Hstore in Hget. rewrite Forall_forall in Hget.
  pose proof (search_docs_keeps_members search docs kept Hkept) as Hsub.
  apply rmap_Forall2 in H.
  assert (Hnd : NoDup (map fname PyqSchema))
    by (apply content_schema_names_unique; simpl; tauto).
  clear Hkept. revert Hsub.
  induction H as [|d r kept' out' Hr _ IH]; intros Hsub; constructor.
  - intros k v Hk.
    destruct (pyq_filter_keys_required _ _ _ _ _ _ k v Hk)
      as (f & Hf & <- & Hdef & Hopt).
    rewrite (required_attribute_kept PyqSchema _ r f Hr Hnd Hf Hdef Hopt).
    rewrite strip_storage_keeps
      by (apply (declared_is_no_storage_key PyqSchema);
          [simpl; tauto | exact Hf]).
    apply (Hget d); [|exact Hk]. apply Hsub. now left.
  - apply IH. intros d0 Hd0. apply Hsub. now right.
Qed.

(** X16.  On a store that honours exact-match filters, every event that
    [list_events] returns for a non-empty category has that category, and
    every admission that [list_admissions] returns for a non-empty status
    has that status. *)
Theorem list_events_and_admissions_exact :
  honours_filters store ->
  forall (db : option DB) (x : string) (s s' : S) (out : list dict),
    x <> EmptyString ->
    (list_events db (Some x) s = (s', Ok out) ->
     Forall (fun r => dict_get "category" r = Some (VStr x)) out)
    /\ (list_admissions db (Some x) s = (s', Ok out) ->
        Forall (fun r => dict_get "status" r = Some (VStr x)) out).
Proof.
  intros Hstore db x s s' out Hx.
  assert (Hone : forall key c sch,
             In sch content_schemas ->
             In (req key TStr) sch ->
             (filter_q <- filter_if key (Some x) db ;;
              docs <- docs_if db c filter_q ;;
              lift (to_models sch docs)) s = (s', Ok out) ->
             Forall (fun r => dict_get key r = Some (VStr x)) out).
  { intros key c sch Hsch Hfield H.
    destruct x as [|c0 x']; [congruence|].
    unfold filter_if, docs_if, truthy in H. cbn [str_truthy] in H.
    destruct db as [h|]; [|inversion H; constructor].
    unfold bind, lift, ret in H.
    destruct (db_bool h) as [[|]|e] eqn:Hb;
      [| inversion H; constructor | discriminate].
    destruct (get_documents h c _ s) as [s1 [docs|e]] eqn:Hget;
      [|discriminate].
    inversion H as [[Hs Hout]]. clear H Hb.
    apply Hstore in Hget. rewrite Forall_forall in Hget.
    apply rmap_Forall2 in Hout.
    pose proof (content_schema_names_unique sch Hsch) as Hnd.
    induction Hout as [|d r docs' out' Hr _ IH]; constructor.
    - pose proof (required_attribute_kept sch _ r (req key TStr) Hr Hnd
                    Hfield eq_refl eq_refl) as Hkept.
      cbn [fname req] in Hkept. rewrite Hkept.
      rewrite strip_storage_keeps
        by (apply (declared_is_no_storage_key sch (req key TStr) Hsch Hfield)).
      apply (Hget d); [now left|]. cbn [dict_get].
      now rewrite String.eqb_refl.
    - apply IH. intros d0 Hd0. apply Hget. now right. }
  split; intros H.
  - apply (Hone "category" "event" EventSchema);
      [simpl; tauto | simpl; tauto |]. exact H.
  - apply (Hone "status" "admission" AdmissionSchema);
      [simpl; tauto | simpl; tauto |]. exact H.
Qed.

End FiltersReachRecords.

